(** * Stock-ledger core of the inventory management application (src/app.py)

    A shallow embedding of the order handlers ([purchase_orders],
    [sales_orders]), of the dashboard and of the low-stock report, over an
    explicit model of the MongoDB collections they read and write.

    Modelling decisions, all read off the source:
    - a collection is the list of its documents in insertion order;
      [insert_one] appends, [find_one] returns the first match, [update_one]
      changes the first match (and, with [upsert=True], appends a new
      document when nothing matches);
    - a document field read with [.get(field, default)] is an [option];
    - Python integers are unbounded, hence [Z]; the value range of the
      storage engine is not part of the source and is not modelled
      ([fits_int64] names the range of an 8-byte integer for the statements
      that say an order with an arbitrary quantity goes through);
    - the builtins [int], [str.strip] and [bson.ObjectId] are not code of this
      application: the handlers are written against the interface [Runtime],
      so every theorem holds for any behaviour of these three; an ASCII
      instance is given for running the handlers on concrete forms;
    - the handlers are embedded from the point where the login check
      [_require_login] has let the request through, and for [POST] requests
      whose id fields are present in the form (for an absent id field
      [ObjectId(None)] invents a new identifier, which no function of the
      form can describe). *)

From Stdlib Require Import ZArith NArith String Ascii List Lia.
From stdpp Require Import gmap strings list.
Import ListNotations.

Local Open Scope Z_scope.
Local Open Scope string_scope.

(** ** Documents and collections *)

(** A BSON object id: twelve bytes, read as a number. *)
Definition oid := N.

(** products: [unit_price] (a float, never read by the modelled code) is
    left out. *)
Record Product := mkProduct {
  p_id : oid;
  p_sku : option string;
  p_name : option string;
  p_category : option string;
  p_reorder_level : option Z;
}.

Record Supplier := mkSupplier {
  sup_id : oid;
  sup_name : string;
}.

Record Warehouse := mkWarehouse {
  wh_id : oid;
  wh_name : string;
  wh_code : string;
}.

Record StockLevel := mkStockLevel {
  sl_product_id : oid;
  sl_warehouse_id : oid;
  sl_quantity : option Z;
}.

Record PurchaseOrder := mkPurchaseOrder {
  po_supplier_id : oid;
  po_product_id : oid;
  po_warehouse_id : oid;
  po_quantity : Z;
  po_status : string;
}.

Record SalesOrder := mkSalesOrder {
  so_product_id : oid;
  so_warehouse_id : oid;
  so_quantity : Z;
  so_customer_name : string;
  so_status : string;
}.

(** [app.db]: the six collections the core touches. *)
Module Db.
Record t := mk {
  products : list Product;
  suppliers : list Supplier;
  warehouses : list Warehouse;
  stock_levels : list StockLevel;
  purchase_orders : list PurchaseOrder;
  sales_orders : list SalesOrder;
}.

Definition empty : t := mk [] [] [] [] [] [].

Definition with_stock_levels (db : t) (c : list StockLevel) : t :=
  mk (products db) (suppliers db) (warehouses db) c
     (purchase_orders db) (sales_orders db).

Definition with_purchase_orders (db : t) (c : list PurchaseOrder) : t :=
  mk (products db) (suppliers db) (warehouses db) (stock_levels db)
     c (sales_orders db).

Definition with_sales_orders (db : t) (c : list SalesOrder) : t :=
  mk (products db) (suppliers db) (warehouses db) (stock_levels db)
     (purchase_orders db) c.
End Db.

(** ** The collection operations the handlers call *)

Definition insert_one {A : Type} (doc : A) (c : list A) : list A := c ++ [doc].

Definition count_documents {A : Type} (c : list A) : nat := length c.

(** The integers the driver can hand to the database: a BSON integer has at
    most 8 bytes, and [insert_one] raises [OverflowError] on a larger one.
    The collections below hold unbounded integers; this predicate names the
    range where a statement depends on it. *)
Definition fits_int64 (n : Z) : bool :=
  bool_decide (- 2 ^ 63 <= n < 2 ^ 63).

(** The filter [{'product_id': p, 'warehouse_id': w}]. *)
Definition stock_filter (p w : oid) (s : StockLevel) : bool :=
  bool_decide (sl_product_id s = p) && bool_decide (sl_warehouse_id s = w).

(** [stock_levels.find_one(stock_filter)] *)
Fixpoint find_one (p w : oid) (c : list StockLevel) : option StockLevel :=
  match c with
  | [] => None
  | s :: c' => if stock_filter p w s then Some s else find_one p w c'
  end.

(** [{'$inc': {'quantity': delta}}] on one document; a missing field is
    created with the increment as its value. *)
Definition inc_quantity (delta : Z) (s : StockLevel) : StockLevel :=
  mkStockLevel (sl_product_id s) (sl_warehouse_id s)
               (Some (default 0 (sl_quantity s) + delta)).

(** [stock_levels.update_one(stock_filter, {'$inc': {'quantity': delta}},
    upsert=...)] *)
Fixpoint update_one_inc (p w : oid) (delta : Z) (upsert : bool)
    (c : list StockLevel) : list StockLevel :=
  match c with
  | [] => if upsert then [mkStockLevel p w (Some delta)] else []
  | s :: c' =>
      if stock_filter p w s then inc_quantity delta s :: c'
      else s :: update_one_inc p w delta upsert c'
  end.

(** Lines 349-350: [find_one] followed by [.get('quantity', 0)], with 0 when
    there is no document.  This is the quantity the specification calls
    [getStock(productId, warehouseId)]. *)
Definition available_qty (db : Db.t) (p w : oid) : Z :=
  match find_one p w (Db.stock_levels db) with
  | Some stock_doc => default 0 (sl_quantity stock_doc)
  | None => 0
  end.

(** The pipeline stage [{'$match': {'product_id': pid}}]. *)
Definition match_product_id (pid : oid) (c : list StockLevel) : list StockLevel :=
  List.filter (fun s => bool_decide (sl_product_id s = pid)) c.

(** A document produced by the [$group] stage. *)
Record GroupDoc := mkGroupDoc {
  g_id : oid;
  g_total_qty : Z;
}.

(** [$group] folds every incoming document into the accumulator of its
    [_id]; [$sum] counts a missing [quantity] as 0. *)
Fixpoint group_add (s : StockLevel) (gs : list GroupDoc) : list GroupDoc :=
  match gs with
  | [] => [mkGroupDoc (sl_product_id s) (default 0 (sl_quantity s))]
  | g :: gs' =>
      if bool_decide (g_id g = sl_product_id s)
      then mkGroupDoc (g_id g) (g_total_qty g + default 0 (sl_quantity s)) :: gs'
      else g :: group_add s gs'
  end.

(** The stage [{'$group': {'_id': '$product_id',
    'total_qty': {'$sum': '$quantity'}}}]. *)
Definition group_by_product_id (c : list StockLevel) : list GroupDoc :=
  fold_left (fun gs s => group_add s gs) c [].

(** [stock_levels.aggregate([{'$match': ...}, {'$group': ...}])] *)
Definition aggregate (pid : oid) (c : list StockLevel) : list GroupDoc :=
  group_by_product_id (match_product_id pid c).

(** The loop [total_qty = 0; for s in stock_docs: total_qty =
    s.get('total_qty', 0)]: the last document wins. *)
Definition total_qty (stock_docs : list GroupDoc) : Z :=
  fold_left (fun _ s => g_total_qty s) stock_docs 0.

(** The [$lookup] join of the stock view: the documents of a catalog
    collection whose [_id] equals the referring field.  An id resolves
    when the join is not empty. *)
Definition lookup_product (db : Db.t) (id : oid) : list Product :=
  List.filter (fun p => bool_decide (p_id p = id)) (Db.products db).

Definition lookup_warehouse (db : Db.t) (id : oid) : list Warehouse :=
  List.filter (fun w => bool_decide (wh_id w = id)) (Db.warehouses db).

Definition lookup_supplier (db : Db.t) (id : oid) : list Supplier :=
  List.filter (fun s => bool_decide (sup_id s = id)) (Db.suppliers db).

(** ** The runtime the handlers are written against *)

Class Runtime := {
  (** [int(s)]: [None] stands for [ValueError]. *)
  py_int : string -> option Z;
  (** [s.strip()] *)
  py_strip : string -> string;
  (** [ObjectId(s)]: [None] stands for [bson.errors.InvalidId]. *)
  ObjectId : string -> option oid;
}.

(** ** Requests and responses *)

Record PurchaseForm := mkPurchaseForm {
  pf_supplier_id : string;
  pf_product_id : string;
  pf_warehouse_id : string;
  pf_quantity : option string;
}.

Record SalesForm := mkSalesForm {
  sf_product_id : string;
  sf_warehouse_id : string;
  sf_quantity : option string;
  sf_customer_name : option string;
}.

(** What a handler answers: [flash(message, category)] followed by
    [redirect(url_for(endpoint))], or an exception nobody catches. *)
Inductive Response :=
| Redirect (endpoint : string) (message : string) (category : string)
| Uncaught (exception : string).

(** The outcome names of the specification, read off the flashed message. *)
Inductive OrderError := InvalidQuantity | UnknownReference | InsufficientStock.

Definition rejection (r : Response) : option OrderError :=
  match r with
  | Redirect _ message _ =>
      if bool_decide (message = "Quantity must be an integer.") then Some InvalidQuantity
      else if bool_decide (message = "Quantity must be greater than zero.") then Some InvalidQuantity
      else if bool_decide (message = "Insufficient stock for this order.") then Some InsufficientStock
      else None
  | Uncaught _ => None
  end.

Definition accepted (r : Response) : bool :=
  match r with
  | Redirect _ _ category => bool_decide (category = "success")
  | Uncaught _ => false
  end.

(** ** The order handlers *)

Section Handlers.
Context `{rt : Runtime}.

(** The quantity field of a form holds a positive integer: [int] reads
    it (["0"] when the field is absent) and the value is above zero. *)
Definition positive_quantity (quantity : option string) : bool :=
  match py_int (default "0" quantity) with
  | Some n => bool_decide (0 < n)
  | None => false
  end.

(** [purchase_orders], the [POST] branch (lines 274-309). *)
Definition purchase_orders (db : Db.t) (form : PurchaseForm) : Db.t * Response :=
  let supplier_id := pf_supplier_id form in
  let product_id := pf_product_id form in
  let warehouse_id := pf_warehouse_id form in
  let quantity := default "0" (pf_quantity form) in
  match py_int quantity with
  | None =>
      (db, Redirect "purchase_orders" "Quantity must be an integer." "danger")
  | Some quantity_val =>
      if bool_decide (quantity_val <= 0) then
        (db, Redirect "purchase_orders" "Quantity must be greater than zero." "danger")
      else
        match ObjectId supplier_id, ObjectId product_id, ObjectId warehouse_id with
        | Some s, Some p, Some w =>
            let po_doc := mkPurchaseOrder s p w quantity_val "RECEIVED" in
            let db1 :=
              Db.with_purchase_orders db (insert_one po_doc (Db.purchase_orders db)) in
            let db2 :=
              Db.with_stock_levels db1
                (update_one_inc p w quantity_val true (Db.stock_levels db1)) in
            (db2, Redirect "purchase_orders"
                    "Purchase order recorded and stock updated." "success")
        | _, _, _ => (db, Uncaught "InvalidId")
        end
  end.

(** [sales_orders], the [POST] branch (lines 329-370). *)
Definition sales_orders (db : Db.t) (form : SalesForm) : Db.t * Response :=
  let product_id := sf_product_id form in
  let warehouse_id := sf_warehouse_id form in
  let quantity := default "0" (sf_quantity form) in
  let customer_name := py_strip (default "" (sf_customer_name form)) in
  match py_int quantity with
  | None =>
      (db, Redirect "sales_orders" "Quantity must be an integer." "danger")
  | Some quantity_val =>
      if bool_decide (quantity_val <= 0) then
        (db, Redirect "sales_orders" "Quantity must be greater than zero." "danger")
      else
        match ObjectId product_id, ObjectId warehouse_id with
        | Some p, Some w =>
            if bool_decide (quantity_val > available_qty db p w) then
              (db, Redirect "sales_orders" "Insufficient stock for this order." "danger")
            else
              let so_doc :=
                mkSalesOrder p w quantity_val customer_name "DISPATCHED" in
              let db1 :=
                Db.with_sales_orders db (insert_one so_doc (Db.sales_orders db)) in
              let db2 :=
                Db.with_stock_levels db1
                  (update_one_inc p w (- quantity_val) false (Db.stock_levels db1)) in
              (db2, Redirect "sales_orders"
                      "Sales order recorded and stock updated." "success")
        | _, _ => (db, Uncaught "InvalidId")
        end
  end.

(** *** A sequence of submitted orders *)

Inductive Request :=
| Purchase (form : PurchaseForm)
| Sale (form : SalesForm).

Definition handle (db : Db.t) (r : Request) : Db.t * Response :=
  match r with
  | Purchase form => purchase_orders db form
  | Sale form => sales_orders db form
  end.

Definition run (db : Db.t) (rs : list Request) : Db.t :=
  fold_left (fun d r => fst (handle d r)) rs db.

(** The quantity a request asks for and the key it names, as the handler
    reads them from the form. *)
Definition request_quantity (r : Request) : option Z :=
  match r with
  | Purchase form => py_int (default "0" (pf_quantity form))
  | Sale form => py_int (default "0" (sf_quantity form))
  end.

Definition request_key (r : Request) : option (oid * oid) :=
  match r with
  | Purchase form =>
      match ObjectId (pf_product_id form), ObjectId (pf_warehouse_id form) with
      | Some p, Some w => Some (p, w)
      | _, _ => None
      end
  | Sale form =>
      match ObjectId (sf_product_id form), ObjectId (sf_warehouse_id form) with
      | Some p, Some w => Some (p, w)
      | _, _ => None
      end
  end.

Definition is_purchase (r : Request) : bool :=
  match r with Purchase _ => true | Sale _ => false end.

(** The quantity request [r], submitted in state [db], adds to the total of
    accepted orders of its kind for the key [(p, w)]: its quantity when the
    handler accepts it and it names that key, 0 otherwise. *)
Definition accepted_quantity (purchase : bool) (db : Db.t) (r : Request)
    (p w : oid) : Z :=
  if accepted (snd (handle db r))
     && bool_decide (is_purchase r = purchase)
     && bool_decide (request_key r = Some (p, w))
  then default 0 (request_quantity r)
  else 0.

(** Sum of the quantities of the accepted orders of one kind for [(p, w)]
    along the sequence [rs] submitted from [db]. *)
Fixpoint accepted_total (purchase : bool) (db : Db.t) (rs : list Request)
    (p w : oid) : Z :=
  match rs with
  | [] => 0
  | r :: rs' =>
      accepted_quantity purchase db r p w
      + accepted_total purchase (fst (handle db r)) rs' p w
  end.

(** *** The sales handler, one storage round trip at a time

    Between two calls to the database another request may run.  A sales
    request goes through three such calls: [find_one] (with the
    validation before it and the comparison after it), [insert_one] of the
    order, [update_one] of the stock level. *)

Inductive SalesTask :=
| Received (form : SalesForm)
| Checked (p w : oid) (quantity_val : Z) (customer_name : string)
| Recorded (p w : oid) (quantity_val : Z)
| Finished (r : Response).

Definition sales_step (db : Db.t) (t : SalesTask) : Db.t * SalesTask :=
  match t with
  | Received form =>
      let customer_name := py_strip (default "" (sf_customer_name form)) in
      match py_int (default "0" (sf_quantity form)) with
      | None =>
          (db, Finished
                 (Redirect "sales_orders" "Quantity must be an integer." "danger"))
      | Some quantity_val =>
          if bool_decide (quantity_val <= 0) then
            (db, Finished
                   (Redirect "sales_orders" "Quantity must be greater than zero."
                      "danger"))
          else
            match ObjectId (sf_product_id form), ObjectId (sf_warehouse_id form) with
            | Some p, Some w =>
                if bool_decide (quantity_val > available_qty db p w) then
                  (db, Finished
                         (Redirect "sales_orders"
                            "Insufficient stock for this order." "danger"))
                else (db, Checked p w quantity_val customer_name)
            | _, _ => (db, Finished (Uncaught "InvalidId"))
            end
      end
  | Checked p w quantity_val customer_name =>
      let so_doc := mkSalesOrder p w quantity_val customer_name "DISPATCHED" in
      (Db.with_sales_orders db (insert_one so_doc (Db.sales_orders db)),
       Recorded p w quantity_val)
  | Recorded p w quantity_val =>
      (Db.with_stock_levels db
         (update_one_inc p w (- quantity_val) false (Db.stock_levels db)),
       Finished
         (Redirect "sales_orders" "Sales order recorded and stock updated."
            "success"))
  | Finished r => (db, Finished r)
  end.

(** Two sales requests in flight; the schedule says whose round trip comes
    next ([true]: the first request, [false]: the second). *)
Fixpoint interleave (schedule : list bool) (db : Db.t) (t1 t2 : SalesTask)
    : Db.t * SalesTask * SalesTask :=
  match schedule with
  | [] => (db, t1, t2)
  | true :: schedule' =>
      let '(db', t1') := sales_step db t1 in interleave schedule' db' t1' t2
  | false :: schedule' =>
      let '(db', t2') := sales_step db t2 in interleave schedule' db' t1 t2'
  end.

Definition response_of (t : SalesTask) : option Response :=
  match t with Finished r => Some r | _ => None end.
End Handlers.

(** ** The dashboard and the low-stock report *)

(** [p.get('category') or 'Uncategorized'] *)
Definition category_name (p : Product) : string :=
  match p_category p with
  | Some c => if bool_decide (c = "") then "Uncategorized" else c
  | None => "Uncategorized"
  end.

Record Counts := mkCounts {
  c_products : nat;
  c_suppliers : nat;
  c_warehouses : nat;
  c_low_stock : nat;
}.

(** What [dashboard] hands to the template.  [category_totals] is the
    dictionary itself; the template receives its keys and values. *)
Record Dashboard := mkDashboard {
  counts : Counts;
  category_totals : gmap string Z;
}.

(** One turn of the loop [for p in products] of [dashboard] (lines 67-81),
    on the pair [(low_stock_count, category_totals)]. *)
Definition dashboard_turn (db : Db.t) (acc : nat * gmap string Z) (p : Product)
    : nat * gmap string Z :=
  let '(low_stock_count, totals) := acc in
  let stock_docs := aggregate (p_id p) (Db.stock_levels db) in
  let total := total_qty stock_docs in
  let reorder_level := default 0 (p_reorder_level p) in
  let low_stock_count :=
    if bool_decide (total < reorder_level) then S low_stock_count
    else low_stock_count in
  let name := category_name p in
  (low_stock_count, <[name := default 0 (totals !! name) + total]> totals).

(** [dashboard] (lines 60-98). *)
Definition dashboard (db : Db.t) : Dashboard :=
  let products_count := count_documents (Db.products db) in
  let suppliers_count := count_documents (Db.suppliers db) in
  let warehouses_count := count_documents (Db.warehouses db) in
  let '(low_stock_count, totals) :=
    fold_left (dashboard_turn db) (Db.products db) (O, ∅) in
  mkDashboard
    (mkCounts products_count suppliers_count warehouses_count low_stock_count)
    totals.

Record LowStockItem := mkLowStockItem {
  i_sku : string;
  i_name : string;
  i_reorder_level : Z;
  i_available_qty : Z;
}.

(** One turn of the loop of [low_stock_report] (lines 390-414). *)
Definition low_stock_turn (db : Db.t) (low_stock_items : list LowStockItem)
    (p : Product) : list LowStockItem :=
  let stock_docs := aggregate (p_id p) (Db.stock_levels db) in
  let total := total_qty stock_docs in
  let reorder_level := default 0 (p_reorder_level p) in
  if bool_decide (total < reorder_level) then
    low_stock_items
      ++ [mkLowStockItem (default "" (p_sku p)) (default "" (p_name p))
            reorder_level total]
  else low_stock_items.

(** [low_stock_report] (lines 388-416). *)
Definition low_stock_report (db : Db.t) : list LowStockItem :=
  fold_left (low_stock_turn db) (Db.products db) [].

(** ** An instance of the runtime for ASCII input

    [int] accepts surrounding white space (the six characters C calls
    space), one sign and at most 4300 decimal digits with single underscores
    between them; [str.strip] also removes the separators chr(28) to
    chr(31); [ObjectId] accepts exactly 24 hexadecimal digits (a text of 24
    characters with white space between pairs of digits, which the library
    reads as fewer than twelve bytes, is not read). *)

Definition is_space (c : ascii) : bool :=
  let n := nat_of_ascii c in
  ((9 <=? n)%nat && (n <=? 13)%nat) || ((28 <=? n)%nat && (n <=? 32)%nat).

Fixpoint lstrip (cs : list ascii) : list ascii :=
  match cs with
  | c :: cs' => if is_space c then lstrip cs' else cs
  | [] => []
  end.

Definition strip (cs : list ascii) : list ascii :=
  rev (lstrip (rev (lstrip cs))).

Definition ascii_strip (s : string) : string :=
  string_of_list_ascii (strip (list_ascii_of_string s)).

Definition digit_of (c : ascii) : option Z :=
  let n := nat_of_ascii c in
  if (48 <=? n)%nat && (n <=? 57)%nat then Some (Z.of_nat (n - 48)) else None.

Fixpoint digits (acc : Z) (after_digit : bool) (cs : list ascii) : option Z :=
  match cs with
  | [] => if after_digit then Some acc else None
  | c :: cs' =>
      match digit_of c with
      | Some d => digits (10 * acc + d) true cs'
      | None =>
          if Ascii.eqb c "_" && after_digit then
            match cs' with
            | [] => None
            | _ => digits acc false cs'
            end
          else None
      end
  end.

Definition is_c_space (c : ascii) : bool :=
  let n := nat_of_ascii c in
  ((9 <=? n)%nat && (n <=? 13)%nat) || (n =? 32)%nat.

Fixpoint lstrip_c (cs : list ascii) : list ascii :=
  match cs with
  | c :: cs' => if is_c_space c then lstrip_c cs' else cs
  | [] => []
  end.

Definition strip_c (cs : list ascii) : list ascii :=
  rev (lstrip_c (rev (lstrip_c cs))).

Definition count_digits (cs : list ascii) : nat :=
  length
    (List.filter (fun c => match digit_of c with Some _ => true | None => false end)
       cs).

Definition ascii_int (s : string) : option Z :=
  let text := strip_c (list_ascii_of_string s) in
  if (4300 <? count_digits text)%nat then None
  else
    match text with
    | c :: cs =>
        if Ascii.eqb c "+" then digits 0 false cs
        else if Ascii.eqb c "-" then Z.opp <$> digits 0 false cs
        else digits 0 false (c :: cs)
    | [] => None
    end.

Definition hex_of (c : ascii) : option N :=
  let n := nat_of_ascii c in
  if (48 <=? n)%nat && (n <=? 57)%nat then Some (N.of_nat (n - 48))
  else if (97 <=? n)%nat && (n <=? 102)%nat then Some (N.of_nat (n - 87))
  else if (65 <=? n)%nat && (n <=? 70)%nat then Some (N.of_nat (n - 55))
  else None.

Fixpoint hex_value (acc : N) (cs : list ascii) : option N :=
  match cs with
  | [] => Some acc
  | c :: cs' =>
      match hex_of c with
      | Some d => hex_value (16 * acc + d)%N cs'
      | None => None
      end
  end.

Definition ascii_ObjectId (s : string) : option oid :=
  if (String.length s =? 24)%nat then hex_value 0%N (list_ascii_of_string s)
  else None.

Definition ascii_runtime : Runtime :=
  {| py_int := ascii_int; py_strip := ascii_strip; ObjectId := ascii_ObjectId |}.

(** ** What the specification asks the views to compute *)

(** The sum of the ledger quantities of a product over the warehouses that
    have an entry for it; an entry without a quantity and a product without
    entries count for 0. *)
Fixpoint summed_quantity (c : list StockLevel) (pid : oid) : Z :=
  match c with
  | [] => 0
  | s :: c' =>
      if bool_decide (sl_product_id s = pid)
      then default 0 (sl_quantity s) + summed_quantity c' pid
      else summed_quantity c' pid
  end.

(** The products the low-stock rule selects: summed quantity strictly below
    the reorder level. *)
Definition is_low_stock (db : Db.t) (p : Product) : bool :=
  bool_decide (summed_quantity (Db.stock_levels db) (p_id p)
               < default 0 (p_reorder_level p)).

Definition low_stock_item (db : Db.t) (p : Product) : LowStockItem :=
  mkLowStockItem (default "" (p_sku p)) (default "" (p_name p))
    (default 0 (p_reorder_level p))
    (summed_quantity (Db.stock_levels db) (p_id p)).

(** A product belongs to category [c] when its category is [c], or when it
    is unset or empty and [c] is "Uncategorized". *)
Definition in_category (c : string) (p : Product) : bool :=
  match p_category p with
  | None => bool_decide (c = "Uncategorized")
  | Some "" => bool_decide (c = "Uncategorized")
  | Some c' => bool_decide (c = c')
  end.

(** The sum of the stock quantities over all products of a category and all
    warehouses. *)
Fixpoint category_sum (stock : list StockLevel) (c : string) (ps : list Product) : Z :=
  match ps with
  | [] => 0
  | p :: ps' =>
      if in_category c p
      then summed_quantity stock (p_id p) + category_sum stock c ps'
      else category_sum stock c ps'
  end.

(** The quantities of the orders on record for the key [(p, w)]. *)
Definition recorded_purchases (db : Db.t) (p w : oid) : Z :=
  foldr
    (fun o acc =>
       if bool_decide ((po_product_id o, po_warehouse_id o) = (p, w))
       then po_quantity o + acc else acc)
    0 (Db.purchase_orders db).

Definition recorded_sales (db : Db.t) (p w : oid) : Z :=
  foldr
    (fun o acc =>
       if bool_decide ((so_product_id o, so_warehouse_id o) = (p, w))
       then so_quantity o + acc else acc)
    0 (Db.sales_orders db).

(** ** Sample data *)

Definition P1 : string := "64b7f3a2c9e1d40012ab34cd".
Definition W1 : string := "64b7f3a2c9e1d40012ab34ce".
Definition S1 : string := "64b7f3a2c9e1d40012ab34cf".

Definition W2 : string := "64B7F3A2C9E1D40012AB34D0".

Definition p1 : oid := Eval vm_compute in default 0%N (ascii_ObjectId P1).
Definition w1 : oid := Eval vm_compute in default 0%N (ascii_ObjectId W1).
Definition s1 : oid := Eval vm_compute in default 0%N (ascii_ObjectId S1).
Definition w2 : oid := Eval vm_compute in default 0%N (ascii_ObjectId W2).

(** Five units of the product in the first warehouse, and an empty catalog. *)
Definition db_five : Db.t :=
  Db.mk [] [] [] [mkStockLevel p1 w1 (Some 5)] [] [].

(** A product with reorder level [level] holding [a] units in one warehouse
    and [b] in another. *)
Definition widget (level : Z) : Product :=
  mkProduct p1 (Some "SKU-1") (Some "Widget") (Some "Tools") (Some level).

Definition db_widget (level a b : Z) : Db.t :=
  Db.mk [widget level] []
    [mkWarehouse w1 "North" "N"; mkWarehouse w2 "South" "S"]
    [mkStockLevel p1 w1 (Some a); mkStockLevel p1 w2 (Some b)] [] [].

(** Three products in two categories, one of them without a category. *)
Definition db_categories : Db.t :=
  Db.mk
    [mkProduct 1%N (Some "A") (Some "Axe") (Some "Tools") (Some 3);
     mkProduct 2%N (Some "B") (Some "Box") (Some "") (Some 1);
     mkProduct 3%N (Some "C") (Some "Cog") (Some "Tools") None;
     mkProduct 4%N (Some "D") (Some "Die") None (Some 9)]
    [] []
    [mkStockLevel 1%N w1 (Some 2); mkStockLevel 2%N w1 (Some 8);
     mkStockLevel 1%N w2 (Some 4); mkStockLevel 3%N w2 (Some 1);
     mkStockLevel 4%N w2 None]
    [] [].

Definition purchase_ten : PurchaseForm := mkPurchaseForm S1 P1 W1 (Some "10").

Definition sale_of (quantity customer : string) : SalesForm :=
  mkSalesForm P1 W1 (Some quantity) (Some customer).

(** A purchase of 10, a sale of 4, a sale of 100 and a purchase of 0. *)
Definition sample_orders : list Request :=
  [Purchase purchase_ten; Sale (sale_of "4" "cust"); Sale (sale_of "100" "cust");
   Purchase (mkPurchaseForm S1 P1 W1 (Some "0"))].

(** ** The rest of the application: session, users, catalog forms, stock view

    The handlers below are embedded like the order handlers: the body after
    the login check, for the request method named.  A reply carries what the
    handler flashed; the data handed to a template is modelled for the stock
    view only, the one view whose records are built in Python. *)

Inductive Reply :=
| RedirectTo (endpoint : string) (flashed : list (string * string))
| Render (template : string) (flashed : list (string * string))
| Raised (exception : string).

(** The reply a [Response] of the order handlers amounts to. *)
Definition reply_of (r : Response) : Reply :=
  match r with
  | Redirect endpoint message category => RedirectTo endpoint [(message, category)]
  | Uncaught exception => Raised exception
  end.

(** *** Users and the session *)

(** users: [password_hash] and [username] are read with [user[...]], [role]
    with [user.get('role', 'viewer')]. *)
Record User := mkUser {
  u_id : oid;
  u_username : string;
  u_password_hash : string;
  u_role : option string;
}.

(** The dictionary stored under [session['user']]. *)
Record SessionUser := mkSessionUser {
  su_id : string;
  su_username : string;
  su_role : string;
}.

(** [werkzeug.security].  [generate_password_hash] draws a salt; the salt
    drawn is its first argument here. *)
Class Werkzeug := {
  generate_password_hash : string -> string -> string;
  check_password_hash : string -> string -> bool;
}.

(** [float(s)]: [None] stands for [ValueError]. *)
Class PyFloat := {
  pyfloat : Type;
  py_float : string -> option pyfloat;
}.

(** [str(oid)]: the twelve bytes as 24 lower-case hexadecimal digits. *)
Definition hex_digit (n : N) : ascii :=
  nth (N.to_nat n) (list_ascii_of_string "0123456789abcdef") "0"%char.

Fixpoint hex_digits (k : nat) (n : N) (acc : string) : string :=
  match k with
  | O => acc
  | S k' => hex_digits k' (n / 16)%N (String (hex_digit (n mod 16)%N) acc)
  end.

Definition ObjectId_str (o : oid) : string := hex_digits 24 o "".

(** [users.find_one({'username': username})] *)
Fixpoint find_user (username : string) (users : list User) : option User :=
  match users with
  | [] => None
  | u :: users' =>
      if bool_decide (u_username u = username) then Some u
      else find_user username users'
  end.

(** [_require_login] (lines 431-434): the redirect when nobody is logged
    in, [None] otherwise. *)
Definition _require_login (session : gmap string SessionUser) : option Reply :=
  match session !! "user" with
  | None => Some (RedirectTo "login" [])
  | Some _ => None
  end.

(** [index] (lines 24-27). *)
Definition index (session : gmap string SessionUser) : Reply :=
  match session !! "user" with
  | Some _ => RedirectTo "dashboard" []
  | None => RedirectTo "login" []
  end.

(** [logout] (lines 50-53). *)
Definition logout (session : gmap string SessionUser)
    : gmap string SessionUser * Reply :=
  (delete "user" session, RedirectTo "login" [("Logged out.", "info")]).

Inductive Method := GET | POST.

Record LoginForm := mkLoginForm {
  lf_username : option string;
  lf_password : option string;
}.

Record ProductForm := mkProductForm {
  prf_sku : option string;
  prf_name : option string;
  prf_category : option string;
  prf_unit_price : option string;
  prf_reorder_level : option string;
}.

Record WarehouseForm := mkWarehouseForm {
  wf_name : option string;
  wf_location : option string;
  wf_code : option string;
}.

(** [products.find_one({'sku': sku})] and [warehouses.find_one({'code':
    code})] *)
Fixpoint find_product_by_sku (sku : string) (c : list Product) : option Product :=
  match c with
  | [] => None
  | p :: c' =>
      if bool_decide (p_sku p = Some sku) then Some p
      else find_product_by_sku sku c'
  end.

Fixpoint find_warehouse_by_code (code : string) (c : list Warehouse)
    : option Warehouse :=
  match c with
  | [] => None
  | w :: c' =>
      if bool_decide (wh_code w = code) then Some w
      else find_warehouse_by_code code c'
  end.

Section Accounts.
Context `{rt : Runtime} `{wz : Werkzeug}.

(** [_ensure_default_admin] (lines 421-428), on the users collection;
    [new_id] is the [_id] the driver gives the inserted document and [salt]
    the salt drawn for the hash. *)
Definition _ensure_default_admin (new_id : oid) (salt : string)
    (users : list User) : list User :=
  match find_user "admin" users with
  | Some existing_admin => users
  | None =>
      insert_one
        (mkUser new_id "admin" (generate_password_hash salt "admin123")
           (Some "admin"))
        users
  end.

(** [login] (lines 30-47). *)
Definition login (users : list User) (session : gmap string SessionUser)
    (method : Method) (form : LoginForm) : gmap string SessionUser * Reply :=
  match method with
  | POST =>
      let username := py_strip (default "" (lf_username form)) in
      let password := default "" (lf_password form) in
      let invalid :=
        (session, Render "login.html" [("Invalid username or password.", "danger")]) in
      match find_user username users with
      | Some user =>
          if check_password_hash (u_password_hash user) password then
            (<["user" := mkSessionUser (ObjectId_str (u_id user)) (u_username user)
                           (default "viewer" (u_role user))]> session,
             RedirectTo "dashboard" [("Logged in successfully.", "success")])
          else invalid
      | None => invalid
      end
  | GET => (session, Render "login.html" [])
  end.

(** A [POST] to the order routes, login check included (lines 270-309 and
    325-370). *)
Definition post_purchase_orders (session : gmap string SessionUser) (db : Db.t)
    (form : PurchaseForm) : Db.t * Reply :=
  match _require_login session with
  | Some redirect_resp => (db, redirect_resp)
  | None => (fst (purchase_orders db form), reply_of (snd (purchase_orders db form)))
  end.

Definition post_sales_orders (session : gmap string SessionUser) (db : Db.t)
    (form : SalesForm) : Db.t * Reply :=
  match _require_login session with
  | Some redirect_resp => (db, redirect_resp)
  | None => (fst (sales_orders db form), reply_of (snd (sales_orders db form)))
  end.
End Accounts.

Section CatalogForms.
Context `{rt : Runtime} `{fl : PyFloat}.

(** [add_product], the [POST] branch (lines 123-154); [new_id] is the [_id]
    the driver gives the inserted document.  The stored [unit_price] has no
    field in [Product]; that it must read as a float is checked as in the
    source. *)
Definition add_product (new_id : oid) (db : Db.t) (form : ProductForm)
    : Db.t * Reply :=
  let sku := py_strip (default "" (prf_sku form)) in
  let name := py_strip (default "" (prf_name form)) in
  let category := py_strip (default "" (prf_category form)) in
  let unit_price := py_strip (default "0" (prf_unit_price form)) in
  let reorder_level := py_strip (default "0" (prf_reorder_level form)) in
  if bool_decide (sku = "") || bool_decide (name = "") then
    (db, Render "add_product.html" [("SKU and Name are required.", "danger")])
  else
    match py_float unit_price, py_int reorder_level with
    | Some unit_price_val, Some reorder_level_val =>
        match find_product_by_sku sku (Db.products db) with
        | Some existing =>
            (db, Render "add_product.html"
                   [("A product with this SKU already exists.", "danger")])
        | None =>
            (Db.mk
               (insert_one
                  (mkProduct new_id (Some sku) (Some name) (Some category)
                     (Some reorder_level_val))
                  (Db.products db))
               (Db.suppliers db) (Db.warehouses db) (Db.stock_levels db)
               (Db.purchase_orders db) (Db.sales_orders db),
             RedirectTo "products" [("Product added successfully.", "success")])
        end
    | _, _ =>
        (db, Render "add_product.html"
               [("Unit price must be a number and reorder level must be an integer.",
                 "danger")])
    end.

(** [add_warehouse], the [POST] branch (lines 207-227).  The stored
    [location] has no field in [Warehouse]. *)
Definition add_warehouse (new_id : oid) (db : Db.t) (form : WarehouseForm)
    : Db.t * Reply :=
  let name := py_strip (default "" (wf_name form)) in
  let code := py_strip (default "" (wf_code form)) in
  if bool_decide (name = "") || bool_decide (code = "") then
    (db, Render "add_warehouse.html" [("Name and code are required.", "danger")])
  else
    match find_warehouse_by_code code (Db.warehouses db) with
    | Some existing =>
        (db, Render "add_warehouse.html"
               [("A warehouse with this code already exists.", "danger")])
    | None =>
        (Db.mk (Db.products db) (Db.suppliers db)
           (insert_one (mkWarehouse new_id name code) (Db.warehouses db))
           (Db.stock_levels db) (Db.purchase_orders db) (Db.sales_orders db),
         RedirectTo "warehouses" [("Warehouse added successfully.", "success")])
    end.
End CatalogForms.

(** Whether a reply is the redirect that follows a successful form. *)
Definition succeeded (r : Reply) : bool :=
  match r with
  | RedirectTo _ [(_, category)] => bool_decide (category = "success")
  | _ => false
  end.

(** *** The stock view *)

Record StockRecord := mkStockRecord {
  r_product_sku : string;
  r_product_name : string;
  r_warehouse_name : string;
  r_quantity : Z;
}.

(** One turn of the loop of [stock] (lines 256-264) over the documents the
    two [$lookup] stages produce; [None] once [...[0]] has raised
    [IndexError] on an empty join. *)
Definition stock_turn (db : Db.t) (records : option (list StockRecord))
    (doc : StockLevel) : option (list StockRecord) :=
  match records with
  | None => None
  | Some records =>
      match lookup_product db (sl_product_id doc) with
      | [] => None
      | product :: _ =>
          match lookup_warehouse db (sl_warehouse_id doc) with
          | [] => None
          | warehouse :: _ =>
              Some
                (insert_one
                   (mkStockRecord (default "" (p_sku product))
                      (default "" (p_name product)) (wh_name warehouse)
                      (default 0 (sl_quantity doc)))
                   records)
          end
      end
  end.

Inductive StockReply :=
| StockPage (records : list StockRecord)
| StockRaised (exception : string).

(** [stock] (lines 237-266). *)
Definition stock (db : Db.t) : StockReply :=
  match fold_left (stock_turn db) (Db.stock_levels db) (Some []) with
  | Some records => StockPage records
  | None => StockRaised "IndexError"
  end.

(** Every stock level refers to a product and to a warehouse of the
    catalog. *)
Definition references_resolve (db : Db.t) : bool :=
  forallb
    (fun s =>
       negb (bool_decide (lookup_product db (sl_product_id s) = []))
       && negb (bool_decide (lookup_warehouse db (sl_warehouse_id s) = [])))
    (Db.stock_levels db).

(** *** Bookkeeping over a sequence of orders *)

(** The keys of the stock levels, in order. *)
Definition stock_keys (c : list StockLevel) : list (oid * oid) :=
  map (fun s => (sl_product_id s, sl_warehouse_id s)) c.

Section Bookkeeping.
Context `{rt : Runtime}.

(** What request [r], submitted in state [db], adds to the accepted orders
    of its kind for product [pid], over all warehouses. *)
Definition accepted_product_quantity (purchase : bool) (db : Db.t) (r : Request)
    (pid : oid) : Z :=
  if accepted (snd (handle db r))
     && bool_decide (is_purchase r = purchase)
     && bool_decide (fst <$> request_key r = Some pid)
  then default 0 (request_quantity r)
  else 0.

Fixpoint accepted_product_total (purchase : bool) (db : Db.t) (rs : list Request)
    (pid : oid) : Z :=
  match rs with
  | [] => 0
  | r :: rs' =>
      accepted_product_quantity purchase db r pid
      + accepted_product_total purchase (fst (handle db r)) rs' pid
  end.

(** The number of accepted requests of one kind along a sequence. *)
Fixpoint accepted_count (purchase : bool) (db : Db.t) (rs : list Request) : nat :=
  match rs with
  | [] => O
  | r :: rs' =>
      ((if accepted (snd (handle db r)) && bool_decide (is_purchase r = purchase)
        then 1 else 0)
       + accepted_count purchase (fst (handle db r)) rs')%nat
  end.
End Bookkeeping.

(** *** Instances and data for running the account and catalog handlers *)

(** Hashes that are the password itself, whatever the salt. *)
Definition plain_werkzeug : Werkzeug :=
  {| generate_password_hash := fun salt password => password;
     check_password_hash := fun pwhash password => bool_decide (pwhash = password) |}.

(** Decimal notation read as a float: white space, one sign, digits, and
    after a point more digits, with digits on at least one side of the
    point.  The result is the pair of what was read before and after the
    point.  [float] reads more (exponents, inf, nan), which this instance
    refuses. *)
Fixpoint split_point (cs : list ascii) : list ascii * option (list ascii) :=
  match cs with
  | [] => ([], None)
  | c :: cs' =>
      if Ascii.eqb c "." then ([], Some cs')
      else (c :: fst (split_point cs'), snd (split_point cs'))
  end.

Definition digits_or_empty (cs : list ascii) : option Z :=
  match cs with
  | [] => Some 0
  | _ => digits 0 false cs
  end.

Definition ascii_float (s : string) : option (Z * Z) :=
  let text := strip_c (list_ascii_of_string s) in
  let unsigned :=
    match text with
    | c :: cs => if Ascii.eqb c "+" || Ascii.eqb c "-" then cs else text
    | [] => []
    end in
  let negative :=
    match text with
    | c :: _ => Ascii.eqb c "-"
    | [] => false
    end in
  let (whole, frac) := split_point unsigned in
  match whole, default [] frac with
  | [], [] => None
  | _, _ =>
      match digits_or_empty whole, digits_or_empty (default [] frac) with
      | Some n, Some f => Some (if negative then - n else n, f)
      | _, _ => None
      end
  end.

Definition decimal_float : PyFloat :=
  {| pyfloat := Z * Z; py_float := ascii_float |}.

Definition nobody : gmap string SessionUser := ∅.

Definition widget_form (sku category level : string) : ProductForm :=
  mkProductForm (Some sku) (Some "Widget") (Some category) (Some "9.50") (Some level).

Definition east_form : WarehouseForm :=
  mkWarehouseForm (Some "East") (Some "Dock 4") (Some " E ").

Definition admin_form : LoginForm :=
  mkLoginForm (Some " admin ") (Some "admin123").

(** The users collection of a fresh installation. *)
Definition first_users : list User :=
  @_ensure_default_admin plain_werkzeug 9%N "salt" [].

(** ** The stock ledger: reading after writing *)

Section Ledger.
Implicit Types (p w : oid) (c : list StockLevel) (s : StockLevel).

Lemma stock_filter_spec p w s :
  stock_filter p w s = true <-> sl_product_id s = p /\ sl_warehouse_id s = w.
Proof.
  unfold stock_filter. rewrite andb_true_iff, !bool_decide_eq_true. tauto.
Qed.

Lemma stock_filter_inc p w delta s :
  stock_filter p w (inc_quantity delta s) = stock_filter p w s.
Proof. reflexivity. Qed.

Lemma stock_filter_other p w p' w' s :
  (p, w) <> (p', w') -> stock_filter p w s = true -> stock_filter p' w' s = false.
Proof.
  intros Hne [Hp Hw]%stock_filter_spec.
  destruct (stock_filter p' w' s) eqn:E; [|reflexivity].
  apply stock_filter_spec in E as [Hp' Hw']. congruence.
Qed.

Lemma find_one_update_same p w delta upsert c :
  find_one p w (update_one_inc p w delta upsert c)
  = match find_one p w c with
    | Some s => Some (inc_quantity delta s)
    | None => if upsert then Some (mkStockLevel p w (Some delta)) else None
    end.
Proof.
  induction c as [|s c IH]; simpl.
  - destruct upsert; simpl; [|reflexivity].
    replace (stock_filter p w (mkStockLevel p w (Some delta))) with true; [reflexivity|].
    symmetry. apply stock_filter_spec. split; reflexivity.
  - destruct (stock_filter p w s) eqn:E; simpl.
    + rewrite stock_filter_inc, E. reflexivity.
    + rewrite E. exact IH.
Qed.

Lemma find_one_update_other p w p' w' delta upsert c :
  (p, w) <> (p', w') ->
  find_one p' w' (update_one_inc p w delta upsert c) = find_one p' w' c.
Proof.
  intros Hne. induction c as [|s c IH]; simpl.
  - destruct upsert; simpl; [|reflexivity].
    rewrite (stock_filter_other p w p' w'); [reflexivity|exact Hne|].
    apply stock_filter_spec. split; reflexivity.
  - destruct (stock_filter p w s) eqn:E; simpl.
    + rewrite stock_filter_inc, (stock_filter_other p w p' w' s Hne E). reflexivity.
    + destruct (stock_filter p' w' s); [reflexivity|exact IH].
Qed.

(** Crediting a key with [upsert=True] adds the increment to what is read
    under that key. *)
Lemma available_qty_credit db p w delta :
  available_qty
    (Db.with_stock_levels db (update_one_inc p w delta true (Db.stock_levels db))) p w
  = available_qty db p w + delta.
Proof.
  unfold available_qty. simpl. rewrite find_one_update_same.
  destruct (find_one p w (Db.stock_levels db)); simpl; lia.
Qed.

(** Debiting a key that reads a non-zero quantity subtracts from it. *)
Lemma available_qty_debit db p w delta :
  available_qty db p w <> 0 ->
  available_qty
    (Db.with_stock_levels db (update_one_inc p w delta false (Db.stock_levels db))) p w
  = available_qty db p w + delta.
Proof.
  unfold available_qty. simpl. rewrite find_one_update_same.
  destruct (find_one p w (Db.stock_levels db)); simpl; lia.
Qed.

Lemma available_qty_other db p w p' w' delta upsert :
  (p, w) <> (p', w') ->
  available_qty
    (Db.with_stock_levels db (update_one_inc p w delta upsert (Db.stock_levels db)))
    p' w'
  = available_qty db p' w'.
Proof.
  intros Hne. unfold available_qty. simpl.
  rewrite find_one_update_other by exact Hne. reflexivity.
Qed.
End Ledger.

(** ** The order handlers, case by case *)

Section Orders.
Context `{rt : Runtime}.
Implicit Types (db : Db.t) (p w s : oid) (q : Z).

(** What [purchase_orders] does with a positive quantity and well-formed
    ids. *)
Lemma purchase_orders_accepts db form s p w q :
  ObjectId (pf_supplier_id form) = Some s ->
  ObjectId (pf_product_id form) = Some p ->
  ObjectId (pf_warehouse_id form) = Some w ->
  py_int (default "0" (pf_quantity form)) = Some q ->
  0 < q ->
  purchase_orders db form
  = (Db.mk (Db.products db) (Db.suppliers db) (Db.warehouses db)
       (update_one_inc p w q true (Db.stock_levels db))
       (Db.purchase_orders db ++ [mkPurchaseOrder s p w q "RECEIVED"])
       (Db.sales_orders db),
     Redirect "purchase_orders" "Purchase order recorded and stock updated."
       "success").
Proof.
  intros Hs Hp Hw Hq Hpos. unfold purchase_orders.
  rewrite Hq, Hs, Hp, Hw.
  rewrite bool_decide_eq_false_2 by lia. reflexivity.
Qed.

(** What [sales_orders] does when the check of line 352 passes. *)
Lemma sales_orders_accepts db form p w q :
  ObjectId (sf_product_id form) = Some p ->
  ObjectId (sf_warehouse_id form) = Some w ->
  py_int (default "0" (sf_quantity form)) = Some q ->
  0 < q ->
  q <= available_qty db p w ->
  sales_orders db form
  = (Db.mk (Db.products db) (Db.suppliers db) (Db.warehouses db)
       (update_one_inc p w (- q) false (Db.stock_levels db))
       (Db.purchase_orders db)
       (Db.sales_orders db
          ++ [mkSalesOrder p w q (py_strip (default "" (sf_customer_name form)))
                "DISPATCHED"]),
     Redirect "sales_orders" "Sales order recorded and stock updated." "success").
Proof.
  intros Hp Hw Hq Hpos Hle. unfold sales_orders.
  rewrite Hq, Hp, Hw.
  rewrite bool_decide_eq_false_2 by lia.
  rewrite bool_decide_eq_false_2 by lia. reflexivity.
Qed.

Lemma purchase_orders_credits db form s p w q :
  ObjectId (pf_supplier_id form) = Some s ->
  ObjectId (pf_product_id form) = Some p ->
  ObjectId (pf_warehouse_id form) = Some w ->
  py_int (default "0" (pf_quantity form)) = Some q ->
  0 < q ->
  forall p' w',
    available_qty (fst (purchase_orders db form)) p' w'
    = if bool_decide ((p, w) = (p', w')) then available_qty db p' w' + q
      else available_qty db p' w'.
Proof.
  intros Hs Hp Hw Hq Hpos p' w'.
  rewrite (purchase_orders_accepts db form s p w q Hs Hp Hw Hq Hpos).
  case_bool_decide as Hk.
  - inversion Hk; subst p' w'. apply (available_qty_credit db p w q).
  - apply (available_qty_other db p w p' w' q true Hk).
Qed.

Lemma sales_orders_debits db form p w q :
  ObjectId (sf_product_id form) = Some p ->
  ObjectId (sf_warehouse_id form) = Some w ->
  py_int (default "0" (sf_quantity form)) = Some q ->
  0 < q ->
  q <= available_qty db p w ->
  forall p' w',
    available_qty (fst (sales_orders db form)) p' w'
    = if bool_decide ((p, w) = (p', w')) then available_qty db p' w' - q
      else available_qty db p' w'.
Proof.
  intros Hp Hw Hq Hpos Hle p' w'.
  rewrite (sales_orders_accepts db form p w q Hp Hw Hq Hpos Hle).
  case_bool_decide as Hk.
  - inversion Hk; subst p' w'.
    etransitivity; [apply (available_qty_debit db p w (- q)); lia|lia].
  - apply (available_qty_other db p w p' w' (- q) false Hk).
Qed.

(** A handler that does not accept leaves the database as it was: every
    branch before the first write returns the state it received. *)
Lemma purchase_orders_refused db form :
  accepted (snd (purchase_orders db form)) = false ->
  fst (purchase_orders db form) = db.
Proof.
  unfold purchase_orders.
  destruct (py_int _) as [q|]; [|reflexivity].
  case_bool_decide; [reflexivity|].
  destruct (ObjectId (pf_supplier_id form)), (ObjectId (pf_product_id form)),
    (ObjectId (pf_warehouse_id form)); simpl; intros; try reflexivity.
  discriminate.
Qed.

Lemma sales_orders_refused db form :
  accepted (snd (sales_orders db form)) = false ->
  fst (sales_orders db form) = db.
Proof.
  unfold sales_orders.
  destruct (py_int _) as [q|]; [|reflexivity].
  case_bool_decide; [reflexivity|].
  destruct (ObjectId (sf_product_id form)), (ObjectId (sf_warehouse_id form));
    simpl; intros; try reflexivity.
  case_bool_decide; [reflexivity|discriminate].
Qed.

(** An accepted request had a positive quantity and well-formed ids. *)
Lemma purchase_orders_accepted_inv db form :
  accepted (snd (purchase_orders db form)) = true ->
  exists s p w q,
    ObjectId (pf_supplier_id form) = Some s
    /\ ObjectId (pf_product_id form) = Some p
    /\ ObjectId (pf_warehouse_id form) = Some w
    /\ py_int (default "0" (pf_quantity form)) = Some q
    /\ 0 < q.
Proof.
  unfold purchase_orders.
  destruct (py_int _) as [q|]; [|discriminate].
  case_bool_decide; [discriminate|].
  destruct (ObjectId (pf_supplier_id form)) as [s|],
    (ObjectId (pf_product_id form)) as [p|],
    (ObjectId (pf_warehouse_id form)) as [w|]; try discriminate.
  intros _. exists s, p, w, q. repeat split; try reflexivity. lia.
Qed.

Lemma sales_orders_accepted_inv db form :
  accepted (snd (sales_orders db form)) = true ->
  exists p w q,
    ObjectId (sf_product_id form) = Some p
    /\ ObjectId (sf_warehouse_id form) = Some w
    /\ py_int (default "0" (sf_quantity form)) = Some q
    /\ 0 < q
    /\ q <= available_qty db p w.
Proof.
  unfold sales_orders.
  destruct (py_int _) as [q|]; [|discriminate].
  case_bool_decide; [discriminate|].
  destruct (ObjectId (sf_product_id form)) as [p|],
    (ObjectId (sf_warehouse_id form)) as [w|]; try discriminate.
  case_bool_decide; [discriminate|].
  intros _. exists p, w, q. repeat split; try reflexivity; lia.
Qed.
End Orders.

(** ** Rejections and acceptances *)

Section OrderClaims.
Context `{rt : Runtime}.
Implicit Types (db : Db.t) (p w s : oid) (q : Z).

(** C6.  A purchase order and a sales order whose quantity is not a
    positive integer (the text is no integer, or the integer is zero or
    negative) are rejected with InvalidQuantity, and the handler returns
    the database it received: no stock level changes and no order record
    is appended. *)
Theorem invalid_quantity_rejected db (pform : PurchaseForm) (sform : SalesForm) :
  positive_quantity (pf_quantity pform) = false ->
  positive_quantity (sf_quantity sform) = false ->
  (rejection (snd (purchase_orders db pform)) = Some InvalidQuantity
   /\ fst (purchase_orders db pform) = db)
  /\ (rejection (snd (sales_orders db sform)) = Some InvalidQuantity
      /\ fst (sales_orders db sform) = db).
Proof.
  unfold positive_quantity, purchase_orders, sales_orders.
  intros Hp Hs. split.
  - destruct (py_int (default "0" (pf_quantity pform))) as [n|]; [|split; reflexivity].
    apply bool_decide_eq_false in Hp.
    rewrite bool_decide_eq_true_2 by lia. split; reflexivity.
  - destruct (py_int (default "0" (sf_quantity sform))) as [n|]; [|split; reflexivity].
    apply bool_decide_eq_false in Hs.
    rewrite bool_decide_eq_true_2 by lia. split; reflexivity.
Qed.

(** C2.  In every state, a sales order (positive quantity, well-formed ids)
    that asks for strictly more than [available_qty] reads under its key,
    where a missing stock entry reads 0, is rejected with InsufficientStock;
    the quantity under the key is the same before and after, and the sales
    order collection is unchanged (indeed the whole database is).  Where no
    stock level is negative, asking for more than is available already makes
    the quantity positive. *)
Theorem insufficient_stock_rejected db form p w q :
  ObjectId (sf_product_id form) = Some p ->
  ObjectId (sf_warehouse_id form) = Some w ->
  py_int (default "0" (sf_quantity form)) = Some q ->
  0 < q ->
  q > available_qty db p w ->
  rejection (snd (sales_orders db form)) = Some InsufficientStock
  /\ available_qty (fst (sales_orders db form)) p w = available_qty db p w
  /\ Db.sales_orders (fst (sales_orders db form)) = Db.sales_orders db
  /\ fst (sales_orders db form) = db.
Proof.
  intros Hp Hw Hq Hpos Hgt.
  assert (E : sales_orders db form
              = (db, Redirect "sales_orders" "Insufficient stock for this order."
                       "danger")).
  { unfold sales_orders. rewrite Hq, Hp, Hw.
    rewrite bool_decide_eq_false_2 by lia.
    rewrite bool_decide_eq_true_2 by lia. reflexivity. }
  rewrite E. repeat split.
Qed.

(** C5.  A sales order (positive quantity, well-formed ids) that asks for
    exactly the available quantity of its key is accepted, its record is
    appended, and the key then reads 0. *)
Theorem exact_stock_accepted db form p w q :
  ObjectId (sf_product_id form) = Some p ->
  ObjectId (sf_warehouse_id form) = Some w ->
  py_int (default "0" (sf_quantity form)) = Some q ->
  0 < q ->
  q = available_qty db p w ->
  accepted (snd (sales_orders db form)) = true
  /\ available_qty (fst (sales_orders db form)) p w = 0
  /\ length (Db.sales_orders (fst (sales_orders db form)))
     = S (length (Db.sales_orders db)).
Proof.
  intros Hp Hw Hq Hpos Heq.
  rewrite (sales_orders_accepts db form p w q Hp Hw Hq Hpos) by lia.
  simpl. split; [reflexivity|]. split.
  - etransitivity; [apply (available_qty_debit db p w (- q)); lia|lia].
  - rewrite length_app. simpl. lia.
Qed.

(** C7.  From a state without a stock entry for (P, W), a purchase order
    for 10 units makes the key read 10, and a following sales order for 4
    units makes it read 6; both orders are accepted. *)
Theorem purchase_then_sale_round_trip db S P W s p w ten four customer :
  ObjectId S = Some s ->
  ObjectId P = Some p ->
  ObjectId W = Some w ->
  py_int ten = Some 10 ->
  py_int four = Some 4 ->
  find_one p w (Db.stock_levels db) = None ->
  let db1 := fst (purchase_orders db (mkPurchaseForm S P W (Some ten))) in
  let db2 := fst (sales_orders db1 (mkSalesForm P W (Some four) (Some customer))) in
  available_qty db1 p w = 10
  /\ available_qty db2 p w = 6
  /\ accepted (snd (purchase_orders db (mkPurchaseForm S P W (Some ten)))) = true
  /\ accepted
       (snd (sales_orders db1 (mkSalesForm P W (Some four) (Some customer))))
     = true.
Proof.
  intros Hs Hp Hw H10 H4 Hnone db1 db2.
  set (pform := mkPurchaseForm S P W (Some ten)) in *.
  set (sform := mkSalesForm P W (Some four) (Some customer)) in *.
  assert (A0 : available_qty db p w = 0).
  { unfold available_qty. rewrite Hnone. reflexivity. }
  assert (A1 : available_qty db1 p w = 10).
  { unfold db1.
    rewrite (purchase_orders_credits db pform s p w 10 Hs Hp Hw H10) by lia.
    rewrite bool_decide_eq_true_2 by reflexivity. lia. }
  assert (E1 : accepted (snd (purchase_orders db pform)) = true).
  { rewrite (purchase_orders_accepts db pform s p w 10 Hs Hp Hw H10) by lia.
    reflexivity. }
  clearbody db1.
  assert (A2 : available_qty db2 p w = 6).
  { unfold db2.
    rewrite (sales_orders_debits db1 sform p w 4 Hp Hw H4) by lia.
    rewrite bool_decide_eq_true_2 by reflexivity. lia. }
  assert (E2 : accepted (snd (sales_orders db1 sform)) = true).
  { rewrite (sales_orders_accepts db1 sform p w 4 Hp Hw H4) by lia.
    reflexivity. }
  auto.
Qed.

(** C3, as the code has it.  The handlers never consult the catalog.  No
    order is ever answered with UnknownReference, and what a handler answers
    and what it leaves in the stock levels and in the two order collections
    is the same whatever products, suppliers and warehouses the database
    holds.  A purchase order with a positive quantity and well-formed ids,
    whose quantity and resulting stock level fit the 8-byte integers of the
    storage, is accepted also when none of its ids resolves: its record is
    appended and its key is credited.  A sales order with a positive
    quantity and well-formed ids is decided by the stock level alone: it is
    accepted exactly when the quantity does not exceed what its key reads. *)
Theorem orders_ignore_catalog db pform sform :
  (rejection (snd (purchase_orders db pform)) <> Some UnknownReference
   /\ rejection (snd (sales_orders db sform)) <> Some UnknownReference)
  /\ (forall products' suppliers' warehouses',
        let db' :=
          Db.mk products' suppliers' warehouses' (Db.stock_levels db)
            (Db.purchase_orders db) (Db.sales_orders db) in
        (snd (purchase_orders db' pform) = snd (purchase_orders db pform)
         /\ Db.stock_levels (fst (purchase_orders db' pform))
            = Db.stock_levels (fst (purchase_orders db pform))
         /\ Db.purchase_orders (fst (purchase_orders db' pform))
            = Db.purchase_orders (fst (purchase_orders db pform))
         /\ Db.sales_orders (fst (purchase_orders db' pform))
            = Db.sales_orders (fst (purchase_orders db pform)))
        /\ (snd (sales_orders db' sform) = snd (sales_orders db sform)
            /\ Db.stock_levels (fst (sales_orders db' sform))
               = Db.stock_levels (fst (sales_orders db sform))
            /\ Db.purchase_orders (fst (sales_orders db' sform))
               = Db.purchase_orders (fst (sales_orders db sform))
            /\ Db.sales_orders (fst (sales_orders db' sform))
               = Db.sales_orders (fst (sales_orders db sform))))
  /\ (forall s p w q,
        ObjectId (pf_supplier_id pform) = Some s ->
        ObjectId (pf_product_id pform) = Some p ->
        ObjectId (pf_warehouse_id pform) = Some w ->
        py_int (default "0" (pf_quantity pform)) = Some q ->
        0 < q ->
        fits_int64 q = true ->
        fits_int64 (available_qty db p w + q) = true ->
        accepted (snd (purchase_orders db pform)) = true
        /\ Db.purchase_orders (fst (purchase_orders db pform))
           = (Db.purchase_orders db ++ [mkPurchaseOrder s p w q "RECEIVED"])%list
        /\ available_qty (fst (purchase_orders db pform)) p w
           = available_qty db p w + q)
  /\ (forall p w q,
        ObjectId (sf_product_id sform) = Some p ->
        ObjectId (sf_warehouse_id sform) = Some w ->
        py_int (default "0" (sf_quantity sform)) = Some q ->
        0 < q ->
        accepted (snd (sales_orders db sform))
        = bool_decide (q <= available_qty db p w)).
Proof.
  split; [split|split; [|split]].
  - unfold purchase_orders.
    destruct (py_int _); [|discriminate].
    case_bool_decide; [discriminate|].
    destruct (ObjectId (pf_supplier_id pform)), (ObjectId (pf_product_id pform)),
      (ObjectId (pf_warehouse_id pform)); discriminate.
  - unfold sales_orders.
    destruct (py_int _); [|discriminate].
    case_bool_decide; [discriminate|].
    destruct (ObjectId (sf_product_id sform)), (ObjectId (sf_warehouse_id sform));
      try discriminate.
    case_bool_decide; discriminate.
  - intros products' suppliers' warehouses' db'. subst db'. split.
    + unfold purchase_orders.
      destruct (py_int _); [|repeat split].
      case_bool_decide; [repeat split|].
      destruct (ObjectId (pf_supplier_id pform)), (ObjectId (pf_product_id pform)),
        (ObjectId (pf_warehouse_id pform)); repeat split.
    + unfold sales_orders.
      destruct (py_int _); [|repeat split].
      case_bool_decide; [repeat split|].
      destruct (ObjectId (sf_product_id sform)) as [p|]; [|repeat split].
      destruct (ObjectId (sf_warehouse_id sform)) as [w|]; [|repeat split].
      unfold available_qty. cbn [Db.stock_levels].
      case_bool_decide; repeat split.
  - intros s p w q Hs Hp Hw Hq Hpos _ _.
    rewrite (purchase_orders_accepts db pform s p w q Hs Hp Hw Hq Hpos). simpl.
    split; [reflexivity|]. split; [reflexivity|].
    apply (available_qty_credit db p w q).
  - intros p w q Hp Hw Hq Hpos.
    destruct (decide (q <= available_qty db p w)) as [Hle|Hgt].
    + rewrite (sales_orders_accepts db sform p w q Hp Hw Hq Hpos Hle).
      rewrite bool_decide_eq_true_2 by exact Hle. reflexivity.
    + unfold sales_orders. rewrite Hq, Hp, Hw.
      rewrite bool_decide_eq_false_2 by lia.
      rewrite bool_decide_eq_true_2 by lia.
      rewrite bool_decide_eq_false_2 by exact Hgt. reflexivity.
Qed.
End OrderClaims.

(** ** Sequences of orders *)

Section Sequences.
Context `{rt : Runtime}.
Implicit Types (db : Db.t) (p w : oid) (r : Request) (rs : list Request).

Lemma accepted_quantity_refused purchase db r p w :
  accepted (snd (handle db r)) = false ->
  accepted_quantity purchase db r p w = 0.
Proof. intros H. unfold accepted_quantity. rewrite H. reflexivity. Qed.

Lemma accepted_quantity_other_kind db r p w :
  accepted_quantity (negb (is_purchase r)) db r p w = 0.
Proof.
  unfold accepted_quantity.
  rewrite (bool_decide_eq_false_2 (is_purchase r = negb (is_purchase r)))
    by (destruct (is_purchase r); discriminate).
  rewrite andb_false_r. reflexivity.
Qed.

Lemma accepted_quantity_same_kind db r p w p0 w0 q :
  accepted (snd (handle db r)) = true ->
  request_key r = Some (p0, w0) ->
  request_quantity r = Some q ->
  accepted_quantity (is_purchase r) db r p w
  = if bool_decide ((p0, w0) = (p, w)) then q else 0.
Proof.
  intros Ha Hk Hq. unfold accepted_quantity.
  rewrite Ha, Hk, Hq, (bool_decide_eq_true_2 (is_purchase r = is_purchase r))
    by reflexivity.
  simpl. do 2 case_bool_decide; congruence.
Qed.

(** One request moves the reading of a key by what it contributes to the
    accepted purchases, minus what it contributes to the accepted sales. *)
Lemma handle_available_qty db r p w :
  available_qty (fst (handle db r)) p w
  = available_qty db p w
    + accepted_quantity true db r p w - accepted_quantity false db r p w.
Proof.
  destruct (accepted (snd (handle db r))) eqn:Ha.
  - destruct r as [form|form]; simpl in Ha.
    + destruct (purchase_orders_accepted_inv db form Ha)
        as (s & p0 & w0 & q & Hs & Hp & Hw & Hq & Hpos).
      rewrite (accepted_quantity_other_kind db (Purchase form) p w
               : accepted_quantity false db (Purchase form) p w = 0).
      rewrite (accepted_quantity_same_kind db (Purchase form) p w p0 w0 q
               : _ -> _ -> _ -> accepted_quantity true _ _ _ _ = _);
        [|exact Ha|simpl; rewrite Hp, Hw; reflexivity|exact Hq].
      simpl. rewrite (purchase_orders_credits db form s p0 w0 q Hs Hp Hw Hq Hpos).
      case_bool_decide; lia.
    + destruct (sales_orders_accepted_inv db form Ha)
        as (p0 & w0 & q & Hp & Hw & Hq & Hpos & Hle).
      rewrite (accepted_quantity_other_kind db (Sale form) p w
               : accepted_quantity true db (Sale form) p w = 0).
      rewrite (accepted_quantity_same_kind db (Sale form) p w p0 w0 q
               : _ -> _ -> _ -> accepted_quantity false _ _ _ _ = _);
        [|exact Ha|simpl; rewrite Hp, Hw; reflexivity|exact Hq].
      simpl. rewrite (sales_orders_debits db form p0 w0 q Hp Hw Hq Hpos Hle).
      case_bool_decide; lia.
  - rewrite !accepted_quantity_refused by exact Ha.
    destruct r as [form|form]; simpl in *.
    + rewrite purchase_orders_refused by exact Ha. lia.
    + rewrite sales_orders_refused by exact Ha. lia.
Qed.

(** No request makes a reading negative. *)
Lemma handle_nonneg db r :
  (forall p w, 0 <= available_qty db p w) ->
  forall p w, 0 <= available_qty (fst (handle db r)) p w.
Proof.
  intros Hinv p w.
  destruct (accepted (snd (handle db r))) eqn:Ha.
  - destruct r as [form|form]; simpl in *.
    + destruct (purchase_orders_accepted_inv db form Ha)
        as (s & p0 & w0 & q & Hs & Hp & Hw & Hq & Hpos).
      rewrite (purchase_orders_credits db form s p0 w0 q Hs Hp Hw Hq Hpos).
      specialize (Hinv p w). case_bool_decide; lia.
    + destruct (sales_orders_accepted_inv db form Ha)
        as (p0 & w0 & q & Hp & Hw & Hq & Hpos & Hle).
      rewrite (sales_orders_debits db form p0 w0 q Hp Hw Hq Hpos Hle).
      case_bool_decide as Hk; [|apply Hinv].
      inversion Hk; subst p0 w0. lia.
  - destruct r as [form|form]; simpl in *.
    + rewrite purchase_orders_refused by exact Ha. apply Hinv.
    + rewrite sales_orders_refused by exact Ha. apply Hinv.
Qed.

Lemma run_cons db r rs : run db (r :: rs) = run (fst (handle db r)) rs.
Proof. reflexivity. Qed.

Lemma run_available_qty rs : forall db p w,
  available_qty (run db rs) p w
  = available_qty db p w
    + accepted_total true db rs p w - accepted_total false db rs p w.
Proof.
  induction rs as [|r rs IH]; intros db p w.
  - simpl. lia.
  - rewrite run_cons, IH, handle_available_qty. simpl. lia.
Qed.

Lemma run_nonneg rs : forall db,
  (forall p w, 0 <= available_qty db p w) ->
  forall p w, 0 <= available_qty (run db rs) p w.
Proof.
  induction rs as [|r rs IH]; intros db Hinv p w.
  - apply Hinv.
  - rewrite run_cons. apply IH. apply handle_nonneg. exact Hinv.
Qed.

(** C1.  Starting from an empty stock ledger, after every operation of every
    sequence of purchase and sales requests the quantity read under any
    (product, warehouse) key is the sum of the quantities of the accepted
    purchase orders for that key minus the sum of the quantities of the
    accepted sales orders for that key, and it is not negative.  The
    prefix [take n rs] is the sequence up to its [n]-th operation. *)
Theorem ledger_is_purchases_minus_sales db0 rs p w :
  Db.stock_levels db0 = [] ->
  forall n,
    available_qty (run db0 (take n rs)) p w
    = accepted_total true db0 (take n rs) p w
      - accepted_total false db0 (take n rs) p w
    /\ 0 <= available_qty (run db0 (take n rs)) p w.
Proof.
  intros Hempty n.
  assert (Hzero : forall p' w', available_qty db0 p' w' = 0).
  { intros p' w'. unfold available_qty. rewrite Hempty. reflexivity. }
  split.
  - rewrite run_available_qty, Hzero. lia.
  - apply run_nonneg. intros p' w'. rewrite Hzero. lia.
Qed.

(** The same balance, read from the order collections: every accepted order
    left exactly one record, and nothing else did. *)
Lemma handle_recorded db r p w :
  recorded_purchases (fst (handle db r)) p w
  = recorded_purchases db p w + accepted_quantity true db r p w
  /\ recorded_sales (fst (handle db r)) p w
     = recorded_sales db p w + accepted_quantity false db r p w.
Proof.
  destruct (accepted (snd (handle db r))) eqn:Ha.
  - destruct r as [form|form]; simpl in Ha.
    + destruct (purchase_orders_accepted_inv db form Ha)
        as (s & p0 & w0 & q & Hs & Hp & Hw & Hq & Hpos).
      rewrite (accepted_quantity_other_kind db (Purchase form) p w
               : accepted_quantity false db (Purchase form) p w = 0).
      rewrite (accepted_quantity_same_kind db (Purchase form) p w p0 w0 q
               : _ -> _ -> _ -> accepted_quantity true _ _ _ _ = _);
        [|exact Ha|simpl; rewrite Hp, Hw; reflexivity|exact Hq].
      simpl. rewrite (purchase_orders_accepts db form s p0 w0 q Hs Hp Hw Hq Hpos).
      unfold recorded_purchases, recorded_sales. simpl.
      rewrite foldr_app. simpl. split; [|lia].
      generalize (Db.purchase_orders db). intros l.
      induction l as [|o l IH]; simpl; repeat case_bool_decide; lia.
    + destruct (sales_orders_accepted_inv db form Ha)
        as (p0 & w0 & q & Hp & Hw & Hq & Hpos & Hle).
      rewrite (accepted_quantity_other_kind db (Sale form) p w
               : accepted_quantity true db (Sale form) p w = 0).
      rewrite (accepted_quantity_same_kind db (Sale form) p w p0 w0 q
               : _ -> _ -> _ -> accepted_quantity false _ _ _ _ = _);
        [|exact Ha|simpl; rewrite Hp, Hw; reflexivity|exact Hq].
      simpl. rewrite (sales_orders_accepts db form p0 w0 q Hp Hw Hq Hpos Hle).
      unfold recorded_purchases, recorded_sales. simpl.
      rewrite foldr_app. simpl. split; [lia|].
      generalize (Db.sales_orders db). intros l.
      induction l as [|o l IH]; simpl; repeat case_bool_decide; lia.
  - rewrite !accepted_quantity_refused by exact Ha.
    destruct r as [form|form]; simpl in *.
    + rewrite purchase_orders_refused by exact Ha. lia.
    + rewrite sales_orders_refused by exact Ha. lia.
Qed.

Lemma run_recorded rs : forall db p w,
  recorded_purchases (run db rs) p w
  = recorded_purchases db p w + accepted_total true db rs p w
  /\ recorded_sales (run db rs) p w
     = recorded_sales db p w + accepted_total false db rs p w.
Proof.
  induction rs as [|r rs IH]; intros db p w.
  - simpl. lia.
  - rewrite run_cons. destruct (IH (fst (handle db r)) p w) as [IHp IHs].
    destruct (handle_recorded db r p w) as [Hp Hs].
    rewrite IHp, IHs, Hp, Hs. simpl. lia.
Qed.

Lemma ledger_matches_order_records db0 rs p w :
  Db.stock_levels db0 = [] ->
  Db.purchase_orders db0 = [] ->
  Db.sales_orders db0 = [] ->
  available_qty (run db0 rs) p w
  = recorded_purchases (run db0 rs) p w - recorded_sales (run db0 rs) p w.
Proof.
  intros Hst Hpo Hso.
  destruct (run_recorded rs db0 p w) as [Hp Hs].
  rewrite run_available_qty, Hp, Hs.
  unfold available_qty, recorded_purchases, recorded_sales.
  rewrite Hst, Hpo, Hso. simpl. lia.
Qed.
End Sequences.

(** ** The aggregation pipeline *)

Section Aggregation.
Implicit Types (pid : oid) (c : list StockLevel) (db : Db.t) (p : Product).

Lemma match_product_id_all pid c :
  Forall (fun s => sl_product_id s = pid) (match_product_id pid c).
Proof.
  apply List.Forall_forall. intros s [_ Hs]%filter_In.
  apply bool_decide_eq_true in Hs. exact Hs.
Qed.

Lemma summed_quantity_match pid c :
  summed_quantity (match_product_id pid c) pid = summed_quantity c pid.
Proof.
  induction c as [|s c IH]; simpl; [reflexivity|].
  case_bool_decide as E; simpl.
  - rewrite bool_decide_eq_true_2 by exact E. rewrite IH. reflexivity.
  - exact IH.
Qed.

(** Documents of one product all fall into the accumulator of that
    product. *)
Lemma group_one_product pid c : forall a,
  Forall (fun s => sl_product_id s = pid) c ->
  fold_left (fun gs s => group_add s gs) c [mkGroupDoc pid a]
  = [mkGroupDoc pid (a + summed_quantity c pid)].
Proof.
  induction c as [|s c IH]; intros a Hall; simpl.
  - f_equal. f_equal. lia.
  - inversion Hall as [|? ? Hs Hc]; subst.
    rewrite !bool_decide_eq_true_2 by reflexivity. simpl.
    rewrite IH by exact Hc. f_equal. f_equal. lia.
Qed.

(** The pipeline yields no document when the product has no stock entry
    and one document, holding the sum, otherwise. *)
Lemma aggregate_spec pid c :
  aggregate pid c
  = match match_product_id pid c with
    | [] => []
    | _ :: _ => [mkGroupDoc pid (summed_quantity c pid)]
    end.
Proof.
  unfold aggregate, group_by_product_id.
  pose proof (match_product_id_all pid c) as Hall.
  pose proof (summed_quantity_match pid c) as Hsum.
  destruct (match_product_id pid c) as [|s l]; [reflexivity|].
  inversion Hall as [|? ? Hs Hl]; subst. simpl.
  rewrite group_one_product by exact Hl.
  simpl in Hsum. rewrite bool_decide_eq_true_2 in Hsum by reflexivity.
  rewrite Hsum. reflexivity.
Qed.

Lemma summed_quantity_no_match pid c :
  match_product_id pid c = [] -> summed_quantity c pid = 0.
Proof.
  intros H. rewrite <- summed_quantity_match, H. reflexivity.
Qed.

(** The overwrite loop after the pipeline reads the sum, 0 for a product
    without entries. *)
Lemma total_qty_aggregate pid c :
  total_qty (aggregate pid c) = summed_quantity c pid.
Proof.
  rewrite aggregate_spec.
  destruct (match_product_id pid c) eqn:E; [|reflexivity].
  rewrite summed_quantity_no_match by exact E. reflexivity.
Qed.

Lemma low_stock_turn_spec db items p :
  low_stock_turn db items p
  = if is_low_stock db p then (items ++ [low_stock_item db p])%list else items.
Proof.
  unfold low_stock_turn, is_low_stock, low_stock_item.
  rewrite total_qty_aggregate. reflexivity.
Qed.

Lemma low_stock_fold db ps : forall items,
  fold_left (low_stock_turn db) ps items
  = (items ++ map (low_stock_item db) (List.filter (is_low_stock db) ps))%list.
Proof.
  induction ps as [|p ps IH]; intros items; simpl.
  - rewrite app_nil_r. reflexivity.
  - rewrite IH, low_stock_turn_spec.
    destruct (is_low_stock db p); simpl; [|reflexivity].
    rewrite <- app_assoc. reflexivity.
Qed.

Lemma in_category_name cat p :
  in_category cat p = bool_decide (category_name p = cat).
Proof.
  unfold in_category, category_name.
  destruct (p_category p) as [[|a s]|]; simpl;
    repeat case_bool_decide; congruence.
Qed.

Lemma category_sum_absent stock cat ps :
  existsb (in_category cat) ps = false -> category_sum stock cat ps = 0.
Proof.
  induction ps as [|p ps IH]; simpl; [reflexivity|].
  intros [Hp Hps]%orb_false_iff. rewrite Hp. apply IH, Hps.
Qed.

Lemma dashboard_turn_spec db n (m : gmap string Z) p :
  dashboard_turn db (n, m) p
  = (if is_low_stock db p then S n else n,
     <[category_name p :=
         default 0 (m !! category_name p)
         + summed_quantity (Db.stock_levels db) (p_id p)]> m).
Proof.
  unfold dashboard_turn, is_low_stock.
  rewrite total_qty_aggregate. reflexivity.
Qed.

Lemma dashboard_fold db ps : forall n (m : gmap string Z),
  fst (fold_left (dashboard_turn db) ps (n, m))
  = (n + length (List.filter (is_low_stock db) ps))%nat
  /\ forall cat,
       snd (fold_left (dashboard_turn db) ps (n, m)) !! cat
       = if existsb (in_category cat) ps
         then Some (default 0 (m !! cat) + category_sum (Db.stock_levels db) cat ps)
         else m !! cat.
Proof.
  induction ps as [|p ps IH]; intros n m.
  - simpl. split; [lia|reflexivity].
  - cbn [fold_left existsb category_sum List.filter].
    rewrite dashboard_turn_spec.
    match goal with
    | |- context [fold_left _ ps (?n1, ?m1)] =>
        destruct (IH n1 m1) as [IHn IHm]
    end.
    split.
    + rewrite IHn. destruct (is_low_stock db p); simpl; lia.
    + intros cat. rewrite IHm, in_category_name.
      case_bool_decide as E; simpl.
      * subst cat. rewrite lookup_insert_eq. simpl.
        destruct (existsb _ ps) eqn:Ex.
        -- f_equal. lia.
        -- rewrite category_sum_absent by exact Ex. f_equal. lia.
      * rewrite lookup_insert_ne by exact E. reflexivity.
Qed.

(** C4.  The report holds, in the order of the products, one item for
    each product whose ledger quantities, summed over the warehouses that
    have an entry for it (0 without entries), are strictly below its
    reorder level, and the item carries that sum as its available
    quantity.  A product whose sum equals its reorder level adds nothing
    to the report. *)
Theorem low_stock_report_classifies db :
  low_stock_report db
  = map (low_stock_item db) (List.filter (is_low_stock db) (Db.products db))
  /\ (forall p items,
        length (low_stock_turn db items p) = S (length items)
        <-> summed_quantity (Db.stock_levels db) (p_id p)
            < default 0 (p_reorder_level p))
  /\ (forall p items,
        summed_quantity (Db.stock_levels db) (p_id p)
        = default 0 (p_reorder_level p) ->
        low_stock_turn db items p = items)
  /\ (forall item,
        In item (low_stock_report db) ->
        exists p,
          In p (Db.products db)
          /\ summed_quantity (Db.stock_levels db) (p_id p) < i_reorder_level item
          /\ i_reorder_level item = default 0 (p_reorder_level p)
          /\ i_available_qty item
             = summed_quantity (Db.stock_levels db) (p_id p)).
Proof.
  assert (Hrep : low_stock_report db
                 = map (low_stock_item db)
                     (List.filter (is_low_stock db) (Db.products db))).
  { unfold low_stock_report. rewrite low_stock_fold. reflexivity. }
  split; [exact Hrep|]. split; [|split].
  - intros p items. rewrite low_stock_turn_spec. unfold is_low_stock.
    case_bool_decide as E.
    + rewrite length_app. simpl. split; [intros _; exact E|intros _; lia].
    + split; [intros Hl; lia|intros Hlt; contradiction].
  - intros p items Heq. rewrite low_stock_turn_spec. unfold is_low_stock.
    rewrite bool_decide_eq_false_2 by lia. reflexivity.
  - intros item Hin. rewrite Hrep in Hin.
    apply in_map_iff in Hin as (p & Hitem & Hp).
    apply filter_In in Hp as [Hp Hlow].
    apply bool_decide_eq_true in Hlow.
    exists p. subst item. simpl. auto.
Qed.

(** C8.  The dashboard's category dictionary has a key for exactly the
    categories that have a product, and maps each of them to the sum, over
    the products of the category, of their stock quantities over all
    warehouses; a product whose category is unset or empty counts under
    "Uncategorized". *)
Theorem dashboard_category_totals db cat :
  category_totals (dashboard db) !! cat
  = if existsb (in_category cat) (Db.products db)
    then Some (category_sum (Db.stock_levels db) cat (Db.products db))
    else None.
Proof.
  unfold dashboard.
  pose proof (dashboard_fold db (Db.products db) O ∅) as [_ Hm].
  specialize (Hm cat).
  destruct (fold_left (dashboard_turn db) (Db.products db) (O, ∅)) as [n m].
  simpl in *. rewrite Hm, lookup_empty. simpl. reflexivity.
Qed.

(** C10.  The low-stock count of the dashboard is the number of items of
    the low-stock report. *)
Theorem dashboard_low_stock_count_is_report_length db :
  c_low_stock (counts (dashboard db)) = length (low_stock_report db).
Proof.
  unfold dashboard, low_stock_report.
  pose proof (dashboard_fold db (Db.products db) O ∅) as [Hn _].
  destruct (fold_left (dashboard_turn db) (Db.products db) (O, ∅)) as [n m].
  simpl in *. rewrite Hn, low_stock_fold. simpl.
  rewrite length_map. reflexivity.
Qed.
End Aggregation.

(** ** Requests in flight together *)

Section RoundTrips.
Context `{rt : Runtime}.

(** Taken one after the other without anything in between, the three
    round trips of a sales request are the handler. *)
Lemma sales_steps_sequential db form (other : SalesTask) :
  interleave [true; true; true] db (Received form) other
  = (fst (sales_orders db form), Finished (snd (sales_orders db form)), other).
Proof.
  unfold interleave, sales_step, sales_orders.
  destruct (py_int _) as [q|]; [|reflexivity].
  case_bool_decide; [reflexivity|].
  destruct (ObjectId (sf_product_id form)) as [p|]; [|reflexivity].
  destruct (ObjectId (sf_warehouse_id form)) as [w|]; [|reflexivity].
  case_bool_decide; reflexivity.
Qed.
End RoundTrips.

(** C9, on the code.  Five units are in stock; a sale of 4 and a sale of 3
    are in flight.  When both have read the stock level before either has
    written, both pass the check of line 352, both orders are recorded, and
    the stock level ends at -2.  Run one after the other, the second is
    refused and 1 unit remains. *)
Theorem concurrent_sales_oversell :
  let first := Received (sale_of "4" "ann") in
  let second := Received (sale_of "3" "bob") in
  let racy :=
    @interleave ascii_runtime [true; false; true; true; false; false]
      db_five first second in
  let serial :=
    @interleave ascii_runtime [true; true; true; false; false; false]
      db_five first second in
  available_qty db_five p1 w1 = 5
  /\ (accepted <$> response_of (snd (fst racy))) = Some true
  /\ (accepted <$> response_of (snd racy)) = Some true
  /\ length (Db.sales_orders (fst (fst racy))) = 2%nat
  /\ available_qty (fst (fst racy)) p1 w1 = -2
  /\ (accepted <$> response_of (snd (fst serial))) = Some true
  /\ (rejection <$> response_of (snd serial)) = Some (Some InsufficientStock)
  /\ available_qty (fst (fst serial)) p1 w1 = 1.
Proof. vm_compute. repeat split. Qed.

(** ** The theorems at work on the sample data *)

Example ascii_int_samples :
  ascii_int " 12 " = Some 12 /\ ascii_int "-3" = Some (-3)
  /\ ascii_int "1_000" = Some 1000 /\ ascii_int "1.5" = None
  /\ ascii_int "" = None /\ ascii_int "ten" = None.
Proof. vm_compute. repeat split. Qed.

Example ascii_ObjectId_samples :
  ascii_ObjectId P1 = Some p1 /\ ascii_ObjectId W2 = Some w2
  /\ ascii_ObjectId "64b7" = None
  /\ ascii_ObjectId "64b7f3a2c9e1d40012ab34cg" = None.
Proof. vm_compute. repeat split. Qed.

(** Reorder level 10: a sum of 9 is reported, a sum of 10 is not; reorder
    level 5 with 2 units in each of two warehouses is reported with 4. *)
Example low_stock_threshold :
  low_stock_report (db_widget 10 4 5) = [mkLowStockItem "SKU-1" "Widget" 10 9]
  /\ low_stock_report (db_widget 10 4 6) = []
  /\ low_stock_report (db_widget 5 2 2) = [mkLowStockItem "SKU-1" "Widget" 5 4].
Proof. vm_compute. repeat split. Qed.

Example dashboard_sample :
  category_totals (dashboard db_categories) !! "Tools" = Some 7
  /\ category_totals (dashboard db_categories) !! "Uncategorized" = Some 8
  /\ category_totals (dashboard db_categories) !! "" = None
  /\ c_low_stock (counts (dashboard db_categories)) = 1%nat
  /\ length (low_stock_report db_categories) = 1%nat.
Proof. vm_compute. repeat split. Qed.

(** C3 as stated fails: in a database whose catalog is empty, so that no id
    resolves, a purchase order for 10 units is not rejected with
    UnknownReference; it is accepted, the stock level of its key goes from 0
    to 10 and its record is appended. *)
Lemma unknown_reference_is_accepted :
  lookup_supplier Db.empty s1 = []
  /\ lookup_product Db.empty p1 = []
  /\ lookup_warehouse Db.empty w1 = []
  /\ @ObjectId ascii_runtime (pf_supplier_id purchase_ten) = Some s1
  /\ @ObjectId ascii_runtime (pf_product_id purchase_ten) = Some p1
  /\ @ObjectId ascii_runtime (pf_warehouse_id purchase_ten) = Some w1
  /\ accepted (snd (@purchase_orders ascii_runtime Db.empty purchase_ten)) = true
  /\ available_qty Db.empty p1 w1 = 0
  /\ available_qty (fst (@purchase_orders ascii_runtime Db.empty purchase_ten)) p1 w1
     = 10
  /\ Db.purchase_orders (fst (@purchase_orders ascii_runtime Db.empty purchase_ten))
     = [mkPurchaseOrder s1 p1 w1 10 "RECEIVED"]
  /\ ~ (rejection (snd (@purchase_orders ascii_runtime Db.empty purchase_ten))
        = Some UnknownReference
        /\ Db.stock_levels (fst (@purchase_orders ascii_runtime Db.empty purchase_ten))
           = Db.stock_levels Db.empty
        /\ Db.purchase_orders
             (fst (@purchase_orders ascii_runtime Db.empty purchase_ten))
           = Db.purchase_orders Db.empty).
Proof.
  repeat (split; [vm_compute; reflexivity|]).
  vm_compute. intros [H _]. discriminate H.
Qed.

Lemma ledger_is_purchases_minus_sales_witness :
  Db.stock_levels Db.empty = []
  /\ (available_qty (@run ascii_runtime Db.empty (take 3 sample_orders)) p1 w1
      = @accepted_total ascii_runtime true Db.empty (take 3 sample_orders) p1 w1
        - @accepted_total ascii_runtime false Db.empty (take 3 sample_orders) p1 w1
      /\ 0 <= available_qty (@run ascii_runtime Db.empty (take 3 sample_orders)) p1 w1)
  /\ @accepted_total ascii_runtime true Db.empty (take 3 sample_orders) p1 w1 = 10
  /\ @accepted_total ascii_runtime false Db.empty (take 3 sample_orders) p1 w1 = 4.
Proof.
  split; [reflexivity|]. split.
  - apply (@ledger_is_purchases_minus_sales ascii_runtime Db.empty sample_orders p1 w1).
    reflexivity.
  - split; vm_compute; reflexivity.
Defined.

Lemma insufficient_stock_rejected_witness :
  let form := sale_of "9" "ann" in
  (9 > available_qty db_five p1 w1)
  /\ rejection (snd (@sales_orders ascii_runtime db_five form)) = Some InsufficientStock
  /\ available_qty (fst (@sales_orders ascii_runtime db_five form)) p1 w1
     = available_qty db_five p1 w1
  /\ Db.sales_orders (fst (@sales_orders ascii_runtime db_five form))
     = Db.sales_orders db_five
  /\ fst (@sales_orders ascii_runtime db_five form) = db_five.
Proof.
  intros form. split; [vm_compute; reflexivity|].
  apply (@insufficient_stock_rejected ascii_runtime db_five form p1 w1 9);
    vm_compute; reflexivity.
Defined.

Lemma exact_stock_accepted_witness :
  let form := sale_of "5" "ann" in
  5 = available_qty db_five p1 w1
  /\ accepted (snd (@sales_orders ascii_runtime db_five form)) = true
  /\ available_qty (fst (@sales_orders ascii_runtime db_five form)) p1 w1 = 0
  /\ length (Db.sales_orders (fst (@sales_orders ascii_runtime db_five form)))
     = S (length (Db.sales_orders db_five)).
Proof.
  intros form. split; [vm_compute; reflexivity|].
  apply (@exact_stock_accepted ascii_runtime db_five form p1 w1 5);
    vm_compute; reflexivity.
Defined.

Lemma invalid_quantity_rejected_witness :
  let pform := mkPurchaseForm S1 P1 W1 (Some "1.5") in
  let sform := mkSalesForm P1 W1 (Some "-3") None in
  @positive_quantity ascii_runtime (pf_quantity pform) = false
  /\ @positive_quantity ascii_runtime (sf_quantity sform) = false
  /\ (rejection (snd (@purchase_orders ascii_runtime db_five pform))
      = Some InvalidQuantity
      /\ fst (@purchase_orders ascii_runtime db_five pform) = db_five)
  /\ (rejection (snd (@sales_orders ascii_runtime db_five sform))
      = Some InvalidQuantity
      /\ fst (@sales_orders ascii_runtime db_five sform) = db_five).
Proof.
  intros pform sform.
  split; [vm_compute; reflexivity|]. split; [vm_compute; reflexivity|].
  apply (@invalid_quantity_rejected ascii_runtime db_five pform sform);
    vm_compute; reflexivity.
Defined.

Lemma purchase_then_sale_round_trip_witness :
  let db1 := fst (@purchase_orders ascii_runtime Db.empty
                    (mkPurchaseForm S1 P1 W1 (Some "10"))) in
  let db2 := fst (@sales_orders ascii_runtime db1
                    (mkSalesForm P1 W1 (Some "4") (Some "cust"))) in
  find_one p1 w1 (Db.stock_levels Db.empty) = None
  /\ available_qty db1 p1 w1 = 10
  /\ available_qty db2 p1 w1 = 6
  /\ accepted (snd (@purchase_orders ascii_runtime Db.empty
                      (mkPurchaseForm S1 P1 W1 (Some "10")))) = true
  /\ accepted (snd (@sales_orders ascii_runtime db1
                      (mkSalesForm P1 W1 (Some "4") (Some "cust")))) = true.
Proof.
  intros db1 db2. split; [reflexivity|].
  apply (@purchase_then_sale_round_trip ascii_runtime Db.empty S1 P1 W1 s1 p1 w1
           "10" "4" "cust");
    vm_compute; reflexivity.
Defined.

Lemma orders_ignore_catalog_witness :
  lookup_product Db.empty p1 = []
  /\ fits_int64 10 = true
  /\ fits_int64 (available_qty Db.empty p1 w1 + 10) = true
  /\ accepted (snd (@purchase_orders ascii_runtime Db.empty purchase_ten)) = true
  /\ Db.purchase_orders (fst (@purchase_orders ascii_runtime Db.empty purchase_ten))
     = (Db.purchase_orders Db.empty ++ [mkPurchaseOrder s1 p1 w1 10 "RECEIVED"])%list
  /\ available_qty (fst (@purchase_orders ascii_runtime Db.empty purchase_ten)) p1 w1
     = available_qty Db.empty p1 w1 + 10.
Proof.
  split; [reflexivity|]. split; [vm_compute; reflexivity|].
  split; [vm_compute; reflexivity|].
  apply (proj1 (proj2 (proj2
           (@orders_ignore_catalog ascii_runtime Db.empty purchase_ten
              (sale_of "4" "cust")))) s1 p1 w1 10);
    vm_compute; reflexivity.
Defined.

Lemma low_stock_report_classifies_witness :
  (summed_quantity (Db.stock_levels (db_widget 10 4 6)) (p_id (widget 10))
   = default 0 (p_reorder_level (widget 10)))
  /\ low_stock_turn (db_widget 10 4 6) [] (widget 10) = []
  /\ exists p,
       In p (Db.products (db_widget 5 2 2))
       /\ summed_quantity (Db.stock_levels (db_widget 5 2 2)) (p_id p) < 5
       /\ 5 = default 0 (p_reorder_level p)
       /\ 4 = summed_quantity (Db.stock_levels (db_widget 5 2 2)) (p_id p).
Proof.
  split; [reflexivity|]. split.
  - apply (proj1 (proj2 (proj2 (low_stock_report_classifies (db_widget 10 4 6))))).
    reflexivity.
  - apply (proj2 (proj2 (proj2 (low_stock_report_classifies (db_widget 5 2 2))))
             (mkLowStockItem "SKU-1" "Widget" 5 4)).
    vm_compute. left. reflexivity.
Defined.

(** ** Orders and the totals the views read *)

Section ProductTotals.
Context `{rt : Runtime}.
Implicit Types (db : Db.t) (p w pid : oid) (r : Request) (rs : list Request).

Lemma summed_quantity_upsert p w delta c pid :
  summed_quantity (update_one_inc p w delta true c) pid
  = summed_quantity c pid + (if bool_decide (p = pid) then delta else 0).
Proof.
  induction c as [|s c IH]; simpl.
  - case_bool_decide; lia.
  - destruct (stock_filter p w s) eqn:E; simpl.
    + apply stock_filter_spec in E as [Hp Hw].
      repeat case_bool_decide; simpl; try lia; congruence.
    + rewrite IH. repeat case_bool_decide; lia.
Qed.

Lemma summed_quantity_update_found p w delta c pid :
  find_one p w c <> None ->
  summed_quantity (update_one_inc p w delta false c) pid
  = summed_quantity c pid + (if bool_decide (p = pid) then delta else 0).
Proof.
  induction c as [|s c IH]; simpl; [congruence|].
  destruct (stock_filter p w s) eqn:E; simpl; intros Hfound.
  - apply stock_filter_spec in E as [Hp Hw].
    repeat case_bool_decide; simpl; try lia; congruence.
  - rewrite IH by exact Hfound. repeat case_bool_decide; lia.
Qed.

Lemma available_qty_found db p w :
  available_qty db p w <> 0 -> find_one p w (Db.stock_levels db) <> None.
Proof.
  unfold available_qty. destruct (find_one p w (Db.stock_levels db)); congruence.
Qed.

Lemma accepted_product_quantity_refused purchase db r pid :
  accepted (snd (handle db r)) = false ->
  accepted_product_quantity purchase db r pid = 0.
Proof. intros H. unfold accepted_product_quantity. rewrite H. reflexivity. Qed.

(** One request moves the summed quantity of a product by what it adds to
    the accepted purchases of the product, minus what it adds to its
    accepted sales. *)
Lemma handle_summed_quantity db r pid :
  summed_quantity (Db.stock_levels (fst (handle db r))) pid
  = summed_quantity (Db.stock_levels db) pid
    + accepted_product_quantity true db r pid
    - accepted_product_quantity false db r pid.
Proof.
  destruct (accepted (snd (handle db r))) eqn:Ha.
  - unfold accepted_product_quantity. rewrite Ha.
    destruct r as [form|form]; simpl in Ha |- *.
    + destruct (purchase_orders_accepted_inv db form Ha)
        as (s & p0 & w0 & q & Hs & Hp & Hw & Hq & Hpos).
      rewrite (purchase_orders_accepts db form s p0 w0 q Hs Hp Hw Hq Hpos).
      rewrite Hp, Hw, Hq. simpl. rewrite summed_quantity_upsert.
      repeat case_bool_decide; simpl; try lia; congruence.
    + destruct (sales_orders_accepted_inv db form Ha)
        as (p0 & w0 & q & Hp & Hw & Hq & Hpos & Hle).
      rewrite (sales_orders_accepts db form p0 w0 q Hp Hw Hq Hpos Hle).
      rewrite Hp, Hw, Hq. simpl.
      rewrite summed_quantity_update_found by (apply available_qty_found; lia).
      repeat case_bool_decide; simpl; try lia; congruence.
  - rewrite !accepted_product_quantity_refused by exact Ha.
    destruct r as [form|form]; simpl in *.
    + rewrite purchase_orders_refused by exact Ha. lia.
    + rewrite sales_orders_refused by exact Ha. lia.
Qed.

(** X1.  After any sequence of purchase and sales requests, from any
    database, the summed quantity of a product (the number the low-stock
    report and the dashboard compare with the reorder level) has moved
    from its initial value by the accepted purchases of that product minus
    its accepted sales, over all warehouses. *)
Theorem product_total_is_purchases_minus_sales rs : forall db pid,
  summed_quantity (Db.stock_levels (run db rs)) pid
  = summed_quantity (Db.stock_levels db) pid
    + accepted_product_total true db rs pid
    - accepted_product_total false db rs pid.
Proof.
  induction rs as [|r rs IH]; intros db pid.
  - simpl. lia.
  - rewrite run_cons, IH, handle_summed_quantity. simpl. lia.
Qed.

Lemma accepted_product_quantity_nonneg purchase db r pid :
  0 <= accepted_product_quantity purchase db r pid.
Proof.
  unfold accepted_product_quantity.
  destruct (accepted (snd (handle db r))) eqn:Ha; simpl; [|lia].
  destruct (bool_decide (is_purchase r = purchase)); simpl; [|lia].
  destruct (bool_decide (fst <$> request_key r = Some pid)); simpl; [|lia].
  destruct r as [form|form]; simpl in *.
  - destruct (purchase_orders_accepted_inv db form Ha)
      as (s & p0 & w0 & q & Hs & Hp & Hw & Hq & Hpos).
    rewrite Hq. simpl. lia.
  - destruct (sales_orders_accepted_inv db form Ha)
      as (p0 & w0 & q & Hp & Hw & Hq & Hpos & Hle).
    rewrite Hq. simpl. lia.
Qed.

Lemma accepted_product_quantity_kind db r pid :
  accepted_product_quantity (negb (is_purchase r)) db r pid = 0.
Proof.
  unfold accepted_product_quantity.
  rewrite (bool_decide_eq_false_2 (is_purchase r = negb (is_purchase r)))
    by (destruct (is_purchase r); discriminate).
  rewrite andb_false_r. reflexivity.
Qed.

Lemma handle_products db r : Db.products (fst (handle db r)) = Db.products db.
Proof.
  destruct (accepted (snd (handle db r))) eqn:Ha.
  - destruct r as [form|form]; simpl in *.
    + destruct (purchase_orders_accepted_inv db form Ha)
        as (s & p0 & w0 & q & Hs & Hp & Hw & Hq & Hpos).
      rewrite (purchase_orders_accepts db form s p0 w0 q Hs Hp Hw Hq Hpos).
      reflexivity.
    + destruct (sales_orders_accepted_inv db form Ha)
        as (p0 & w0 & q & Hp & Hw & Hq & Hpos & Hle).
      rewrite (sales_orders_accepts db form p0 w0 q Hp Hw Hq Hpos Hle).
      reflexivity.
  - destruct r as [form|form]; simpl in *.
    + rewrite purchase_orders_refused by exact Ha. reflexivity.
    + rewrite sales_orders_refused by exact Ha. reflexivity.
Qed.

Lemma filter_length_mono {A} (f g : A -> bool) (l : list A) :
  (forall x, f x = true -> g x = true) ->
  (length (List.filter f l) <= length (List.filter g l))%nat.
Proof.
  intros Himp. induction l as [|x l IH]; simpl; [lia|].
  destruct (f x) eqn:Ef.
  - rewrite (Himp x Ef). simpl. lia.
  - destruct (g x); simpl; lia.
Qed.

(** X2.  A purchase request never puts a product on the low-stock report
    and a sales request never takes one off: after a purchase the products
    that are low on stock were so before, and the report is no longer than
    it was; after a sale the products that were low on stock still are,
    and the report is no shorter. *)
Theorem orders_move_low_stock_one_way db pform sform :
  ((forall pr : Product, is_low_stock (fst (purchase_orders db pform)) pr = true ->
              is_low_stock db pr = true)
   /\ (length (low_stock_report (fst (purchase_orders db pform)))
       <= length (low_stock_report db))%nat)
  /\ ((forall pr : Product, is_low_stock db pr = true ->
                 is_low_stock (fst (sales_orders db sform)) pr = true)
      /\ (length (low_stock_report db)
          <= length (low_stock_report (fst (sales_orders db sform))))%nat).
Proof.
  assert (Hp : forall pr : Product, is_low_stock (fst (purchase_orders db pform)) pr = true ->
                         is_low_stock db pr = true).
  { intros pr. unfold is_low_stock. rewrite !bool_decide_eq_true.
    pose proof (handle_summed_quantity db (Purchase pform) (p_id pr)) as H.
    pose proof (accepted_product_quantity_nonneg true db (Purchase pform) (p_id pr)).
    pose proof (accepted_product_quantity_kind db (Purchase pform) (p_id pr)) as Hk.
    simpl in H, Hk. lia. }
  assert (Hs : forall pr : Product, is_low_stock db pr = true ->
                         is_low_stock (fst (sales_orders db sform)) pr = true).
  { intros pr. unfold is_low_stock. rewrite !bool_decide_eq_true.
    pose proof (handle_summed_quantity db (Sale sform) (p_id pr)) as H.
    pose proof (accepted_product_quantity_nonneg false db (Sale sform) (p_id pr)).
    pose proof (accepted_product_quantity_kind db (Sale sform) (p_id pr)) as Hk.
    simpl in H, Hk. lia. }
  split; split; [exact Hp| |exact Hs|].
  - unfold low_stock_report. rewrite !low_stock_fold. simpl. rewrite !length_map.
    rewrite (handle_products db (Purchase pform) : Db.products (fst (purchase_orders db pform)) = _).
    apply filter_length_mono, Hp.
  - unfold low_stock_report. rewrite !low_stock_fold. simpl. rewrite !length_map.
    rewrite (handle_products db (Sale sform) : Db.products (fst (sales_orders db sform)) = _).
    apply filter_length_mono, Hs.
Qed.
End ProductTotals.

(** ** What a sequence of orders leaves in the collections *)

Section Collections.
Context `{rt : Runtime}.
Implicit Types (db : Db.t) (p w : oid) (r : Request) (rs : list Request).

(** The three things a request can do to the database. *)
Lemma handle_outcome db r :
  (accepted (snd (handle db r)) = false /\ fst (handle db r) = db)
  \/ (exists s p w q,
        is_purchase r = true /\ 0 < q /\ accepted (snd (handle db r)) = true
        /\ fst (handle db r)
           = Db.mk (Db.products db) (Db.suppliers db) (Db.warehouses db)
               (update_one_inc p w q true (Db.stock_levels db))
               (Db.purchase_orders db ++ [mkPurchaseOrder s p w q "RECEIVED"])%list
               (Db.sales_orders db))
  \/ (exists p w q customer,
        is_purchase r = false /\ 0 < q /\ q <= available_qty db p w
        /\ accepted (snd (handle db r)) = true
        /\ fst (handle db r)
           = Db.mk (Db.products db) (Db.suppliers db) (Db.warehouses db)
               (update_one_inc p w (- q) false (Db.stock_levels db))
               (Db.purchase_orders db)
               (Db.sales_orders db ++ [mkSalesOrder p w q customer "DISPATCHED"])%list).
Proof.
  destruct (accepted (snd (handle db r))) eqn:Ha.
  - right. destruct r as [form|form]; simpl in *.
    + left. destruct (purchase_orders_accepted_inv db form Ha)
        as (s & p0 & w0 & q & Hs & Hp & Hw & Hq & Hpos).
      exists s, p0, w0, q.
      rewrite (purchase_orders_accepts db form s p0 w0 q Hs Hp Hw Hq Hpos).
      auto.
    + right. destruct (sales_orders_accepted_inv db form Ha)
        as (p0 & w0 & q & Hp & Hw & Hq & Hpos & Hle).
      exists p0, w0, q, (py_strip (default "" (sf_customer_name form))).
      rewrite (sales_orders_accepts db form p0 w0 q Hp Hw Hq Hpos Hle).
      auto.
  - left. split; [reflexivity|].
    destruct r as [form|form]; simpl in *.
    + apply purchase_orders_refused, Ha.
    + apply sales_orders_refused, Ha.
Qed.

Lemma find_one_none_keys p w c :
  find_one p w c = None -> (p, w) ∉ stock_keys c.
Proof.
  induction c as [|s c IH]; simpl; intros Hnone.
  - apply not_elem_of_nil.
  - destruct (stock_filter p w s) eqn:E; [discriminate|].
    apply not_elem_of_cons. split; [|apply IH, Hnone].
    intros Heq. inversion Heq as [[Hp Hw]].
    assert (stock_filter p w s = true) by (apply stock_filter_spec; auto).
    congruence.
Qed.

(** An update keeps the keys in place; the upsert adds its key at the end
    when no document matches. *)
Lemma stock_keys_update p w delta upsert c :
  stock_keys (update_one_inc p w delta upsert c)
  = match find_one p w c with
    | Some _ => stock_keys c
    | None => if upsert then (stock_keys c ++ [(p, w)])%list else stock_keys c
    end.
Proof.
  induction c as [|s c IH]; simpl.
  - destruct upsert; reflexivity.
  - destruct (stock_filter p w s) eqn:E; simpl; [reflexivity|].
    rewrite IH. destruct (find_one p w c); [reflexivity|].
    destruct upsert; reflexivity.
Qed.

Lemma handle_stock_keys db r :
  stock_keys (Db.stock_levels db) `prefix_of` stock_keys (Db.stock_levels (fst (handle db r)))
  /\ (NoDup (stock_keys (Db.stock_levels db)) ->
      NoDup (stock_keys (Db.stock_levels (fst (handle db r))))).
Proof.
  destruct (handle_outcome db r)
    as [[_ ->]|[(s & p & w & q & _ & _ & _ & ->)|(p & w & q & c & _ & _ & _ & _ & ->)]];
    simpl.
  - split; [reflexivity|auto].
  - rewrite stock_keys_update.
    destruct (find_one p w (Db.stock_levels db)) eqn:E; [split; [reflexivity|auto]|].
    split; [apply prefix_app_r; reflexivity|].
    intros Hnd. apply NoDup_app. split; [exact Hnd|]. split; [|apply NoDup_singleton].
    intros k Hk Hin. apply list_elem_of_singleton in Hin. subst k.
    exact (find_one_none_keys p w _ E Hk).
  - rewrite stock_keys_update.
    destruct (find_one p w (Db.stock_levels db)); split; (reflexivity || auto).
Qed.

(** X3.  Stock entries are never deleted or reordered by orders, and orders
    never create a second entry for a (product, warehouse) pair: if the
    keys of the stock levels are pairwise different before a sequence of
    requests, they are so after it, and the old keys are a prefix of the
    new ones. *)
Theorem stock_entries_stay_unique rs : forall db,
  NoDup (stock_keys (Db.stock_levels db)) ->
  NoDup (stock_keys (Db.stock_levels (run db rs)))
  /\ stock_keys (Db.stock_levels db)
     `prefix_of` stock_keys (Db.stock_levels (run db rs)).
Proof.
  induction rs as [|r rs IH]; intros db Hnd.
  - simpl. split; [exact Hnd|reflexivity].
  - rewrite run_cons. destruct (handle_stock_keys db r) as [Hpre Hkeep].
    destruct (IH (fst (handle db r)) (Hkeep Hnd)) as [IHnd IHpre].
    split; [exact IHnd|]. etransitivity; [exact Hpre|exact IHpre].
Qed.

Lemma handle_order_records db r :
  (Db.purchase_orders db `prefix_of` Db.purchase_orders (fst (handle db r))
   /\ length (Db.purchase_orders (fst (handle db r)))
      = (length (Db.purchase_orders db)
         + (if accepted (snd (handle db r)) && bool_decide (is_purchase r = true)
            then 1 else 0))%nat)
  /\ (Db.sales_orders db `prefix_of` Db.sales_orders (fst (handle db r))
      /\ length (Db.sales_orders (fst (handle db r)))
         = (length (Db.sales_orders db)
            + (if accepted (snd (handle db r)) && bool_decide (is_purchase r = false)
               then 1 else 0))%nat).
Proof.
  destruct (handle_outcome db r)
    as [[Ha ->]|[(s & p & w & q & Hk & _ & Ha & ->)
                |(p & w & q & c & Hk & _ & _ & Ha & ->)]];
    rewrite Ha, ?Hk; simpl.
  - repeat split; (reflexivity || lia).
  - rewrite length_app. simpl.
    repeat split; try reflexivity; try lia. apply prefix_app_r. reflexivity.
  - rewrite length_app. simpl.
    repeat split; try reflexivity; try lia. apply prefix_app_r. reflexivity.
Qed.

(** X4.  The order collections only grow, and by one record per accepted
    request: after a sequence of requests the old records are a prefix of
    the new ones, and the number of records added is the number of accepted
    purchase requests (for purchase orders) and of accepted sales requests
    (for sales orders).  A refused request leaves no record. *)
Theorem order_records_follow_acceptance rs : forall db,
  (Db.purchase_orders db `prefix_of` Db.purchase_orders (run db rs)
   /\ length (Db.purchase_orders (run db rs))
      = (length (Db.purchase_orders db) + accepted_count true db rs)%nat)
  /\ (Db.sales_orders db `prefix_of` Db.sales_orders (run db rs)
      /\ length (Db.sales_orders (run db rs))
         = (length (Db.sales_orders db) + accepted_count false db rs)%nat).
Proof.
  induction rs as [|r rs IH]; intros db.
  - simpl. repeat split; (reflexivity || lia).
  - rewrite run_cons.
    destruct (handle_order_records db r) as [[Hp1 Hp2] [Hs1 Hs2]].
    destruct (IH (fst (handle db r))) as [[IHp1 IHp2] [IHs1 IHs2]].
    simpl accepted_count. repeat split.
    + etransitivity; [exact Hp1|exact IHp1].
    + rewrite IHp2, Hp2. lia.
    + etransitivity; [exact Hs1|exact IHs1].
    + rewrite IHs2, Hs2. lia.
Qed.

(** X5.  Every order on record has a positive quantity and the status its
    handler fixes: if all purchase orders are "RECEIVED" with a positive
    quantity and all sales orders "DISPATCHED" with a positive quantity
    before a sequence of requests, the same holds after it. *)
Theorem order_records_well_formed rs : forall db,
  Forall (fun o => po_status o = "RECEIVED" /\ 0 < po_quantity o)
    (Db.purchase_orders db) ->
  Forall (fun o => so_status o = "DISPATCHED" /\ 0 < so_quantity o)
    (Db.sales_orders db) ->
  Forall (fun o => po_status o = "RECEIVED" /\ 0 < po_quantity o)
    (Db.purchase_orders (run db rs))
  /\ Forall (fun o => so_status o = "DISPATCHED" /\ 0 < so_quantity o)
       (Db.sales_orders (run db rs)).
Proof.
  induction rs as [|r rs IH]; intros db Hpo Hso.
  - simpl. auto.
  - rewrite run_cons. apply IH.
    + destruct (handle_outcome db r)
        as [[_ ->]|[(s & p & w & q & _ & Hq & _ & ->)
                   |(p & w & q & c & _ & _ & _ & _ & ->)]]; simpl; auto.
      apply Forall_app. split; [exact Hpo|]. apply Forall_singleton. auto.
    + destruct (handle_outcome db r)
        as [[_ ->]|[(s & p & w & q & _ & _ & _ & ->)
                   |(p & w & q & c & _ & Hq & _ & _ & ->)]]; simpl; auto.
      apply Forall_app. split; [exact Hso|]. apply Forall_singleton. auto.
Qed.

(** X6.  The order handlers never write to the catalog: after any sequence
    of requests the products, the suppliers and the warehouses are what they
    were, and so are the three counts the dashboard shows for them. *)
Theorem orders_leave_catalog_alone rs : forall db,
  Db.products (run db rs) = Db.products db
  /\ Db.suppliers (run db rs) = Db.suppliers db
  /\ Db.warehouses (run db rs) = Db.warehouses db
  /\ c_products (counts (dashboard (run db rs))) = c_products (counts (dashboard db))
  /\ c_suppliers (counts (dashboard (run db rs))) = c_suppliers (counts (dashboard db))
  /\ c_warehouses (counts (dashboard (run db rs)))
     = c_warehouses (counts (dashboard db)).
Proof.
  assert (Hcat : forall rs db,
            Db.products (run db rs) = Db.products db
            /\ Db.suppliers (run db rs) = Db.suppliers db
            /\ Db.warehouses (run db rs) = Db.warehouses db).
  { clear. induction rs as [|r rs IH]; intros db; [simpl; auto|].
    rewrite run_cons. destruct (IH (fst (handle db r))) as (-> & -> & ->).
    destruct (handle_outcome db r)
      as [[_ ->]|[(s & p & w & q & _ & _ & _ & ->)
                 |(p & w & q & c & _ & _ & _ & _ & ->)]]; simpl; auto. }
  intros db. destruct (Hcat rs db) as (Hp & Hs & Hw).
  repeat split; try assumption; unfold dashboard.
  - destruct (fold_left _ _ _), (fold_left _ _ _). simpl. rewrite Hp. reflexivity.
  - destruct (fold_left _ _ _), (fold_left _ _ _). simpl. rewrite Hs. reflexivity.
  - destruct (fold_left _ _ _), (fold_left _ _ _). simpl. rewrite Hw. reflexivity.
Qed.
End Collections.

(** ** The stock view *)

Section StockView.
Context `{rt : Runtime}.
Implicit Types (db : Db.t) (p w : oid).

Lemma stock_fold_raised db docs : fold_left (stock_turn db) docs None = None.
Proof. induction docs as [|doc docs IH]; simpl; auto. Qed.

(** The loop either raises, at the first stock level whose product or
    warehouse join is empty, or appends one record per stock level. *)
Lemma stock_fold db docs : forall acc,
  match fold_left (stock_turn db) docs (Some acc) with
  | Some records =>
      forallb
        (fun s =>
           negb (bool_decide (lookup_product db (sl_product_id s) = []))
           && negb (bool_decide (lookup_warehouse db (sl_warehouse_id s) = [])))
        docs = true
      /\ exists added,
           records = (acc ++ added)%list
           /\ map r_quantity added = map (fun s => default 0 (sl_quantity s)) docs
  | None =>
      forallb
        (fun s =>
           negb (bool_decide (lookup_product db (sl_product_id s) = []))
           && negb (bool_decide (lookup_warehouse db (sl_warehouse_id s) = [])))
        docs = false
  end.
Proof.
  induction docs as [|doc docs IH]; intros acc.
  - simpl. split; [reflexivity|]. exists []. rewrite app_nil_r. auto.
  - cbn [fold_left forallb map]. unfold stock_turn at 2.
    destruct (lookup_product db (sl_product_id doc)) as [|product ?].
    { rewrite stock_fold_raised. reflexivity. }
    destruct (lookup_warehouse db (sl_warehouse_id doc)) as [|warehouse ?].
    { rewrite stock_fold_raised. reflexivity. }
    rewrite !bool_decide_eq_false_2 by discriminate. simpl negb. simpl andb.
    match goal with
    | |- context [fold_left _ docs (Some ?acc1)] => specialize (IH acc1)
    end.
    destruct (fold_left _ docs _) as [records|]; [|exact IH].
    destruct IH as [Hall (added & -> & Hq)]. split; [exact Hall|].
    eexists (_ :: added). unfold insert_one. rewrite <- app_assoc. simpl.
    split; [reflexivity|]. rewrite Hq. reflexivity.
Qed.

(** X7.  The stock page is served exactly when every stock level refers to
    a product and to a warehouse of the catalog, and then shows one record
    per stock level, in order, with its quantity (0 when the field is
    missing); one stock level with a dangling reference makes the whole
    view raise IndexError. *)
Theorem stock_view_needs_resolving_references db :
  match stock db with
  | StockPage records =>
      references_resolve db = true
      /\ map r_quantity records
         = map (fun s => default 0 (sl_quantity s)) (Db.stock_levels db)
  | StockRaised exception =>
      exception = "IndexError" /\ references_resolve db = false
  end.
Proof.
  unfold stock, references_resolve.
  pose proof (stock_fold db (Db.stock_levels db) []) as H.
  destruct (fold_left _ _ _) as [records|].
  - destruct H as [Hall (added & -> & Hq)]. auto.
  - auto.
Qed.

Lemma references_resolve_keys db :
  references_resolve db = true
  <-> forall k, k ∈ stock_keys (Db.stock_levels db) ->
                lookup_product db k.1 <> [] /\ lookup_warehouse db k.2 <> [].
Proof.
  unfold references_resolve, stock_keys. rewrite forallb_forall. split.
  - intros H k Hk. apply list_elem_of_fmap in Hk as (s & -> & Hs).
    apply list_elem_of_In in Hs. specialize (H s Hs).
    apply andb_true_iff in H as [H1 H2].
    apply negb_true_iff, bool_decide_eq_false in H1.
    apply negb_true_iff, bool_decide_eq_false in H2. auto.
  - intros H s Hs. apply list_elem_of_In in Hs.
    destruct (H (sl_product_id s, sl_warehouse_id s)) as [H1 H2].
    { apply list_elem_of_fmap. exists s. auto. }
    simpl in *. rewrite !bool_decide_eq_false_2 by assumption. reflexivity.
Qed.

Lemma upsert_has_key p w delta c :
  (p, w) ∈ stock_keys (update_one_inc p w delta true c).
Proof.
  induction c as [|s c IH]; simpl.
  - apply list_elem_of_singleton. reflexivity.
  - destruct (stock_filter p w s) eqn:E; simpl.
    + apply stock_filter_spec in E as [-> ->]. apply list_elem_of_here.
    + apply list_elem_of_further, IH.
Qed.

Lemma update_keys_from p w delta upsert c k :
  k ∈ stock_keys (update_one_inc p w delta upsert c) ->
  k ∈ stock_keys c \/ (upsert = true /\ k = (p, w)).
Proof.
  rewrite stock_keys_update.
  destruct (find_one p w c); [auto|]. destruct upsert; [|auto].
  intros [H|H]%elem_of_app; [auto|].
  apply list_elem_of_singleton in H. auto.
Qed.

(** X8.  An accepted purchase order whose product or warehouse is not in the
    catalog breaks the stock page: the stock level it creates has an empty
    join, and the view raises IndexError from then on. *)
Theorem unknown_reference_breaks_stock_view db form s p w q :
  ObjectId (pf_supplier_id form) = Some s ->
  ObjectId (pf_product_id form) = Some p ->
  ObjectId (pf_warehouse_id form) = Some w ->
  py_int (default "0" (pf_quantity form)) = Some q ->
  0 < q ->
  lookup_product db p = [] \/ lookup_warehouse db w = [] ->
  stock (fst (purchase_orders db form)) = StockRaised "IndexError".
Proof.
  intros Hs Hp Hw Hq Hpos Hdangling.
  rewrite (purchase_orders_accepts db form s p w q Hs Hp Hw Hq Hpos). simpl.
  set (db' := Db.mk _ _ _ _ _ _).
  assert (Hres : references_resolve db' = false).
  { destruct (references_resolve db') eqn:E; [|reflexivity]. exfalso.
    destruct (proj1 (references_resolve_keys db') E (p, w)) as [H1 H2].
    { apply upsert_has_key. }
    destruct Hdangling; [apply H1|apply H2]; assumption. }
  unfold stock.
  pose proof (stock_fold db' (Db.stock_levels db') []) as H.
  destruct (fold_left _ _ _) as [records|]; [|reflexivity].
  destruct H as [Hall _]. unfold references_resolve in Hres. congruence.
Qed.

(** X9.  Orders whose ids are in the catalog keep the stock page working:
    when every stock level resolves, it still does, and the page is served,
    after any sales request whatever its form, and after any purchase
    request whose product and warehouse ids are ids of catalog records. *)
Theorem resolving_orders_keep_stock_view db pform sform :
  references_resolve db = true ->
  (references_resolve (fst (sales_orders db sform)) = true
   /\ exists records, stock (fst (sales_orders db sform)) = StockPage records)
  /\ (forall p w,
        ObjectId (pf_product_id pform) = Some p ->
        ObjectId (pf_warehouse_id pform) = Some w ->
        lookup_product db p <> [] ->
        lookup_warehouse db w <> [] ->
        references_resolve (fst (purchase_orders db pform)) = true
        /\ exists records,
             stock (fst (purchase_orders db pform)) = StockPage records).
Proof.
  intros Hres.
  assert (Hserved : forall db', references_resolve db' = true ->
                      exists records, stock db' = StockPage records).
  { intros db' H'. unfold stock, references_resolve in *.
    pose proof (stock_fold db' (Db.stock_levels db') []) as H.
    destruct (fold_left _ _ _) as [records|]; [eauto|congruence]. }
  assert (H2 : references_resolve (fst (sales_orders db sform)) = true).
  { destruct (accepted (snd (sales_orders db sform))) eqn:Ha.
    - destruct (sales_orders_accepted_inv db sform Ha)
        as (p0 & w0 & q & Hp0 & Hw0 & Hq & Hpos & Hle).
      rewrite (sales_orders_accepts db sform p0 w0 q Hp0 Hw0 Hq Hpos Hle).
      simpl. apply references_resolve_keys. simpl. intros k Hk.
      apply update_keys_from in Hk as [Hk|[Hup _]]; [|discriminate].
      apply (proj1 (references_resolve_keys db) Hres k Hk).
    - rewrite sales_orders_refused by exact Ha. exact Hres. }
  split; [split; [exact H2|apply Hserved, H2]|].
  intros p w Hp Hw Hpr Hwr.
  assert (H1 : references_resolve (fst (purchase_orders db pform)) = true).
  { destruct (accepted (snd (purchase_orders db pform))) eqn:Ha.
    - destruct (purchase_orders_accepted_inv db pform Ha)
        as (s & p0 & w0 & q & Hs & Hp0 & Hw0 & Hq & Hpos).
      rewrite (purchase_orders_accepts db pform s p0 w0 q Hs Hp0 Hw0 Hq Hpos).
      simpl. apply references_resolve_keys. simpl. intros k Hk.
      apply update_keys_from in Hk as [Hk|[_ ->]].
      + apply (proj1 (references_resolve_keys db) Hres k Hk).
      + assert (p0 = p) by congruence. assert (w0 = w) by congruence.
        subst p0 w0. split; [exact Hpr|exact Hwr].
    - rewrite purchase_orders_refused by exact Ha. exact Hres. }
  split; [exact H1|apply Hserved, H1].
Qed.
End StockView.

(** ** The catalog forms *)

Section CatalogFacts.
Context `{rt : Runtime} `{fl : PyFloat}.
Implicit Types (db : Db.t) (new_id : oid).

Lemma find_product_by_sku_none sku c :
  find_product_by_sku sku c = None <-> sku ∉ omap p_sku c.
Proof.
  induction c as [|p c IH]; simpl.
  - split; [intros _; apply not_elem_of_nil|reflexivity].
  - case_bool_decide as E.
    + rewrite E. simpl. split; [discriminate|].
      intros H. exfalso. apply H. apply list_elem_of_here.
    + destruct (p_sku p) as [k|]; simpl; [|exact IH].
      rewrite not_elem_of_cons, IH. split; [|tauto].
      intros H. split; [congruence|exact H].
Qed.

Lemma find_warehouse_by_code_none code c :
  find_warehouse_by_code code c = None <-> code ∉ map wh_code c.
Proof.
  induction c as [|w c IH]; simpl.
  - split; [intros _; apply not_elem_of_nil|reflexivity].
  - case_bool_decide as E.
    + rewrite E. split; [discriminate|].
      intros H. exfalso. apply H. apply list_elem_of_here.
    + rewrite not_elem_of_cons, IH. split; [|tauto].
      intros H. split; [congruence|exact H].
Qed.

(** What [add_product] can do: nothing, or append the product it read from
    the form, whose SKU was not in the collection. *)
Lemma add_product_outcome new_id db form :
  (succeeded (snd (add_product new_id db form)) = false
   /\ fst (add_product new_id db form) = db)
  \/ (exists level,
        succeeded (snd (add_product new_id db form)) = true
        /\ py_int (py_strip (default "0" (prf_reorder_level form))) = Some level
        /\ py_strip (default "" (prf_sku form)) <> ""
        /\ py_strip (default "" (prf_name form)) <> ""
        /\ find_product_by_sku (py_strip (default "" (prf_sku form)))
             (Db.products db) = None
        /\ fst (add_product new_id db form)
           = Db.mk
               (Db.products db
                ++ [mkProduct new_id
                      (Some (py_strip (default "" (prf_sku form))))
                      (Some (py_strip (default "" (prf_name form))))
                      (Some (py_strip (default "" (prf_category form))))
                      (Some level)])%list
               (Db.suppliers db) (Db.warehouses db) (Db.stock_levels db)
               (Db.purchase_orders db) (Db.sales_orders db)).
Proof.
  unfold add_product.
  case_bool_decide as Hsku; [left; split; reflexivity|].
  case_bool_decide as Hname; [left; split; reflexivity|]. simpl orb. cbv iota.
  destruct (py_float _); [|left; split; reflexivity].
  destruct (py_int _) as [level|]; [|left; split; reflexivity].
  destruct (find_product_by_sku _ _) eqn:Hfind; [left; split; reflexivity|].
  right. exists level. simpl. auto 10.
Qed.

(** X10.  [add_product] keeps SKUs unique: if no two products share a SKU
    before the form is handled, none do after it, whatever the form. *)
Theorem add_product_keeps_sku_unique new_id db form :
  NoDup (omap p_sku (Db.products db)) ->
  NoDup (omap p_sku (Db.products (fst (add_product new_id db form)))).
Proof.
  intros Hnd.
  destruct (add_product_outcome new_id db form)
    as [[_ ->]|(level & _ & _ & _ & _ & Hfind & ->)]; [exact Hnd|].
  simpl. rewrite omap_app. simpl. apply NoDup_app.
  split; [exact Hnd|]. split; [|apply NoDup_singleton].
  intros k Hk Hin. apply list_elem_of_singleton in Hin. subst k.
  apply find_product_by_sku_none in Hfind. contradiction.
Qed.

(** X11.  Once a product has been added, a second form with the same SKU
    (after stripping) is refused, with whatever name, category, price and
    reorder level, and changes nothing. *)
Theorem add_product_refuses_known_sku new_id db form new_id' form' :
  succeeded (snd (add_product new_id db form)) = true ->
  py_strip (default "" (prf_sku form')) = py_strip (default "" (prf_sku form)) ->
  succeeded (snd (add_product new_id' (fst (add_product new_id db form)) form'))
  = false
  /\ fst (add_product new_id' (fst (add_product new_id db form)) form')
     = fst (add_product new_id db form).
Proof.
  intros Hok Hsame.
  destruct (add_product_outcome new_id db form)
    as [[Hno _]|(level & _ & _ & _ & _ & _ & Hdb)]; [congruence|].
  destruct (add_product_outcome new_id' (fst (add_product new_id db form)) form')
    as [[Hno Hsamedb]|(level' & _ & _ & _ & _ & Hfind & _)]; [auto|].
  exfalso. apply find_product_by_sku_none in Hfind. apply Hfind.
  rewrite Hdb, Hsame. simpl. rewrite omap_app. simpl.
  apply elem_of_app. right. apply list_elem_of_here.
Qed.

(** X12.  A product just added appears on the low-stock report exactly when
    the summed quantity of the stock levels under its new id is below the
    reorder level it was given; in particular, with no stock level under
    the new id, exactly when the reorder level is positive, and then with
    available quantity 0.  The items of the other products are unchanged. *)
Theorem add_product_low_stock_report new_id db form :
  succeeded (snd (add_product new_id db form)) = true ->
  let level := default 0 (py_int (py_strip (default "0" (prf_reorder_level form)))) in
  let total := summed_quantity (Db.stock_levels db) new_id in
  low_stock_report (fst (add_product new_id db form))
  = (low_stock_report db
     ++ (if bool_decide (total < level)
         then [mkLowStockItem (py_strip (default "" (prf_sku form)))
                 (py_strip (default "" (prf_name form))) level total]
         else []))%list
  /\ (match_product_id new_id (Db.stock_levels db) = [] ->
      total = 0).
Proof.
  intros Hok level total.
  split; [|apply summed_quantity_no_match].
  destruct (add_product_outcome new_id db form)
    as [[Hno _]|(n & _ & Hlevel & _ & _ & _ & ->)]; [congruence|].
  subst level total. rewrite Hlevel. simpl default.
  unfold low_stock_report. simpl Db.products.
  rewrite fold_left_app. simpl fold_left.
  rewrite low_stock_turn_spec. unfold is_low_stock, low_stock_item. simpl.
  replace (fold_left (low_stock_turn _) (Db.products db) [])
    with (fold_left (low_stock_turn db) (Db.products db) []).
  - case_bool_decide; [reflexivity|]. rewrite app_nil_r. reflexivity.
  - rewrite !low_stock_fold. reflexivity.
Qed.

(** X13.  A product just added counts on the dashboard: the number of
    products goes up by one, and the summed quantity of the stock levels
    under its new id is added to the total of its category, which is
    "Uncategorized" when the category field strips to the empty string; the
    totals of the other categories are unchanged. *)
Theorem add_product_dashboard new_id db form :
  succeeded (snd (add_product new_id db form)) = true ->
  let category := py_strip (default "" (prf_category form)) in
  let key := if bool_decide (category = "") then "Uncategorized" else category in
  let db' := fst (add_product new_id db form) in
  c_products (counts (dashboard db')) = S (c_products (counts (dashboard db)))
  /\ category_totals (dashboard db') !! key
     = Some (default 0 (category_totals (dashboard db) !! key)
             + summed_quantity (Db.stock_levels db) new_id)
  /\ forall other, other <> key ->
       category_totals (dashboard db') !! other
       = category_totals (dashboard db) !! other.
Proof.
  intros Hok category key db'.
  destruct (add_product_outcome new_id db form)
    as [[Hno _]|(n & _ & Hlevel & _ & _ & _ & Hdb)]; [congruence|].
  subst db'. rewrite Hdb. unfold dashboard, count_documents. simpl Db.products.
  rewrite fold_left_app, length_app. simpl fold_left.
  replace (fold_left (dashboard_turn _) (Db.products db) (O, ∅))
    with (fold_left (dashboard_turn db) (Db.products db) (O, ∅))
    by reflexivity.
  destruct (fold_left (dashboard_turn db) (Db.products db) (O, ∅)) as [low totals].
  rewrite dashboard_turn_spec. simpl.
  change (category_name _) with key.
  split; [lia|]. split.
  - apply lookup_insert_eq.
  - intros other Hne. apply lookup_insert_ne. congruence.
Qed.

(** What [add_warehouse] can do: nothing, or append a warehouse whose code
    was not in the collection. *)
Lemma add_warehouse_outcome new_id db form :
  (succeeded (snd (add_warehouse new_id db form)) = false
   /\ fst (add_warehouse new_id db form) = db)
  \/ (succeeded (snd (add_warehouse new_id db form)) = true
      /\ py_strip (default "" (wf_code form)) <> ""
      /\ find_warehouse_by_code (py_strip (default "" (wf_code form)))
           (Db.warehouses db) = None
      /\ fst (add_warehouse new_id db form)
         = Db.mk (Db.products db) (Db.suppliers db)
             (Db.warehouses db
              ++ [mkWarehouse new_id (py_strip (default "" (wf_name form)))
                    (py_strip (default "" (wf_code form)))])%list
             (Db.stock_levels db) (Db.purchase_orders db) (Db.sales_orders db)).
Proof.
  unfold add_warehouse.
  case_bool_decide as Hname; [left; split; reflexivity|].
  case_bool_decide as Hcode; [left; split; reflexivity|]. simpl orb. cbv iota.
  destruct (find_warehouse_by_code _ _) eqn:Hfind; [left; split; reflexivity|].
  right. simpl. auto.
Qed.

(** X14.  [add_warehouse] keeps warehouse codes unique and never stores an
    empty code: if the codes are pairwise different and none is empty before
    the form is handled, the same holds after it, and a form repeating the
    code of a warehouse just added is refused. *)
Theorem add_warehouse_keeps_code_unique new_id db form :
  NoDup (map wh_code (Db.warehouses db)) ->
  "" ∉ map wh_code (Db.warehouses db) ->
  let db' := fst (add_warehouse new_id db form) in
  NoDup (map wh_code (Db.warehouses db'))
  /\ ("" ∉ map wh_code (Db.warehouses db'))
  /\ (succeeded (snd (add_warehouse new_id db form)) = true ->
      forall new_id' form',
        py_strip (default "" (wf_code form')) = py_strip (default "" (wf_code form)) ->
        succeeded (snd (add_warehouse new_id' db' form')) = false
        /\ fst (add_warehouse new_id' db' form') = db').
Proof.
  intros Hnd Hne db'. subst db'.
  destruct (add_warehouse_outcome new_id db form)
    as [[Hno ->]|(Hok & Hcode & Hfind & ->)].
  - split; [exact Hnd|]. split; [exact Hne|]. congruence.
  - simpl Db.warehouses. rewrite map_app. simpl map.
    apply find_warehouse_by_code_none in Hfind.
    split; [|split].
    + apply NoDup_app. split; [exact Hnd|]. split; [|apply NoDup_singleton].
      intros k Hk Hin. apply list_elem_of_singleton in Hin. subst k. contradiction.
    + intros [Hin|Hin]%elem_of_app; [contradiction|].
      apply list_elem_of_singleton in Hin. congruence.
    + intros _ new_id' form' Hsame.
      match goal with
      | |- context [add_warehouse new_id' ?d form'] =>
          destruct (add_warehouse_outcome new_id' d form')
            as [[Hno' Hdb']|(_ & _ & Hfind' & _)]; [auto|]
      end.
      exfalso. apply find_warehouse_by_code_none in Hfind'. apply Hfind'.
      rewrite Hsame. simpl. rewrite map_app. simpl.
      apply elem_of_app. right. apply list_elem_of_here.
Qed.
End CatalogFacts.

(** ** Accounts and the session *)

Section AccountFacts.
Context `{rt : Runtime} `{wz : Werkzeug}.
Implicit Types (users : list User) (session : gmap string SessionUser).

Lemma find_user_snoc username users u :
  find_user username (users ++ [u])%list
  = match find_user username users with
    | Some found => Some found
    | None => if bool_decide (u_username u = username) then Some u else None
    end.
Proof.
  induction users as [|v users IH]; simpl; [reflexivity|].
  destruct (bool_decide (u_username v = username)); [reflexivity|exact IH].
Qed.

(** X15.  [_ensure_default_admin] makes sure a user named "admin" exists and
    does nothing else: the users it was given are a prefix of its result, a
    user "admin" that was there is kept as it is (its password is not set
    back to the default), and running it again, with whatever id and salt,
    changes nothing. *)
Theorem ensure_default_admin_idempotent new_id salt users :
  let users' := _ensure_default_admin new_id salt users in
  (exists admin, find_user "admin" users' = Some admin)
  /\ users `prefix_of` users'
  /\ (forall new_id' salt', _ensure_default_admin new_id' salt' users' = users')
  /\ (forall admin, find_user "admin" users = Some admin ->
        users' = users /\ find_user "admin" users' = Some admin)
  /\ (find_user "admin" users = None -> length users' = S (length users)).
Proof.
  intros users'. subst users'. unfold _ensure_default_admin.
  destruct (find_user "admin" users) as [admin|] eqn:E.
  - rewrite E. split; [eauto|]. split; [reflexivity|]. split; [reflexivity|].
    split; [|discriminate]. intros a Ha. split; [reflexivity|exact Ha].
  - unfold insert_one.
    assert (Hfound : exists admin,
              find_user "admin"
                (users ++ [mkUser new_id "admin"
                             (generate_password_hash salt "admin123") (Some "admin")])%list
              = Some admin).
    { rewrite find_user_snoc, E. simpl. eauto. }
    destruct Hfound as [admin Hadmin]. rewrite Hadmin.
    split; [eauto|]. split; [apply prefix_app_r; reflexivity|].
    split; [reflexivity|]. split; [discriminate|].
    intros _. rewrite length_app. simpl. lia.
Qed.

(** X16.  On a users collection without an "admin", after
    [_ensure_default_admin] the credentials admin / admin123 log in: the
    session gets the user with its id in hexadecimal, username "admin" and
    role "admin", and the reply redirects to the dashboard.  This needs what
    werkzeug promises, that a hash it generated checks against its password,
    and that stripping leaves the submitted username "admin". *)
Theorem default_admin_can_log_in new_id salt users session form :
  find_user "admin" users = None ->
  check_password_hash (generate_password_hash salt "admin123") "admin123" = true ->
  py_strip (default "" (lf_username form)) = "admin" ->
  lf_password form = Some "admin123" ->
  login (_ensure_default_admin new_id salt users) session POST form
  = (<["user" := mkSessionUser (ObjectId_str new_id) "admin" "admin"]> session,
     RedirectTo "dashboard" [("Logged in successfully.", "success")]).
Proof.
  intros Hnone Hlaw Hname Hpw.
  unfold login, _ensure_default_admin, insert_one.
  rewrite Hname, Hpw, Hnone, find_user_snoc, Hnone. simpl.
  rewrite Hlaw. reflexivity.
Qed.

(** X17.  A [POST] to [login] succeeds exactly when the first user with the
    submitted (stripped) username has a hash that checks against the
    submitted password.  Otherwise the session is left as it was and the
    reply is the same for an unknown username and for a wrong password. *)
Theorem login_succeeds_on_first_match users session form :
  let username := py_strip (default "" (lf_username form)) in
  let password := default "" (lf_password form) in
  (succeeded (snd (login users session POST form)) = true
   <-> exists user,
         find_user username users = Some user
         /\ check_password_hash (u_password_hash user) password = true)
  /\ (succeeded (snd (login users session POST form)) = false ->
      login users session POST form
      = (session,
         Render "login.html" [("Invalid username or password.", "danger")])).
Proof.
  intros username password. unfold login. fold username. fold password.
  destruct (find_user username users) as [user|].
  - destruct (check_password_hash (u_password_hash user) password) eqn:E; simpl.
    + split; [|discriminate]. split; [eauto|reflexivity].
    + split; [|reflexivity]. split; [discriminate|].
      intros (u & Hu & Hc). congruence.
  - simpl. split; [|reflexivity]. split; [discriminate|].
    intros (u & Hu & _). discriminate.
Qed.

(** X18.  Logging in opens the session and logging out closes it: after a
    successful [login] the login check lets requests through and [index]
    leads to the dashboard; a [logout] after it leaves the session without
    its user, and equal to the session before the login when nobody was
    logged in then. *)
Theorem login_logout_round_trip users session form :
  succeeded (snd (login users session POST form)) = true ->
  let session1 := fst (login users session POST form) in
  _require_login session1 = None
  /\ index session1 = RedirectTo "dashboard" []
  /\ fst (logout session1) = delete "user" session
  /\ (session !! "user" = None -> fst (logout session1) = session).
Proof.
  intros Hok session1. subst session1. revert Hok. unfold login.
  destruct (find_user _ users) as [user|]; [|discriminate].
  destruct (check_password_hash _ _); [|discriminate]. intros _. simpl.
  unfold _require_login, index. rewrite lookup_insert_eq.
  split; [reflexivity|]. split; [reflexivity|].
  rewrite delete_insert_eq. split; [reflexivity|].
  intros Hnone. apply delete_id. exact Hnone.
Qed.

(** X19.  After [logout] nothing gets past the login check: [index] leads
    to the login page, and a [POST] to the purchase or sales order route is
    answered with the redirect to the login page and leaves the database as
    it was, whatever the form. *)
Theorem logged_out_posts_change_nothing session db pform sform :
  let session' := fst (logout session) in
  index session' = RedirectTo "login" []
  /\ post_purchase_orders session' db pform = (db, RedirectTo "login" [])
  /\ post_sales_orders session' db sform = (db, RedirectTo "login" []).
Proof.
  intros session'. subst session'.
  unfold post_purchase_orders, post_sales_orders, _require_login, index, logout.
  simpl. rewrite lookup_delete_eq. auto.
Qed.
End AccountFacts.

(** ** The further theorems at work on the sample data *)

Example views_after_orders :
  summed_quantity (Db.stock_levels (@run ascii_runtime db_five sample_orders)) p1 = 11
  /\ @accepted_product_total ascii_runtime true db_five sample_orders p1 = 10
  /\ @accepted_product_total ascii_runtime false db_five sample_orders p1 = 4
  /\ @accepted_count ascii_runtime true db_five sample_orders = 1%nat
  /\ @accepted_count ascii_runtime false db_five sample_orders = 1%nat
  /\ stock (db_widget 5 2 2)
     = StockPage [mkStockRecord "SKU-1" "Widget" "North" 2;
                  mkStockRecord "SKU-1" "Widget" "South" 2]
  /\ stock db_five = StockRaised "IndexError".
Proof. vm_compute. repeat split. Qed.

Lemma stock_entries_stay_unique_witness :
  NoDup (stock_keys (Db.stock_levels db_five))
  /\ NoDup (stock_keys (Db.stock_levels (@run ascii_runtime db_five sample_orders)))
  /\ stock_keys (Db.stock_levels db_five)
     `prefix_of` stock_keys (Db.stock_levels (@run ascii_runtime db_five sample_orders)).
Proof.
  split; [apply NoDup_singleton|].
  apply (@stock_entries_stay_unique ascii_runtime sample_orders db_five).
  apply NoDup_singleton.
Defined.

Lemma order_records_well_formed_witness :
  Forall (fun o => po_status o = "RECEIVED" /\ 0 < po_quantity o)
    (Db.purchase_orders (@run ascii_runtime db_five sample_orders))
  /\ Forall (fun o => so_status o = "DISPATCHED" /\ 0 < so_quantity o)
       (Db.sales_orders (@run ascii_runtime db_five sample_orders)).
Proof.
  apply (@order_records_well_formed ascii_runtime sample_orders db_five);
    apply Forall_nil_2.
Defined.

Lemma unknown_reference_breaks_stock_view_witness :
  lookup_product Db.empty p1 = []
  /\ stock Db.empty = StockPage []
  /\ stock (fst (@purchase_orders ascii_runtime Db.empty purchase_ten))
     = StockRaised "IndexError".
Proof.
  split; [reflexivity|]. split; [reflexivity|].
  apply (@unknown_reference_breaks_stock_view ascii_runtime Db.empty purchase_ten
           s1 p1 w1 10); try (vm_compute; reflexivity).
  left. reflexivity.
Defined.

Lemma resolving_orders_keep_stock_view_witness :
  references_resolve (db_widget 5 2 2) = true
  /\ (references_resolve
         (fst (@sales_orders ascii_runtime (db_widget 5 2 2) (sale_of "1" "cust")))
       = true
      /\ exists records,
           stock (fst (@sales_orders ascii_runtime (db_widget 5 2 2)
                         (sale_of "1" "cust")))
           = StockPage records)
  /\ (references_resolve
         (fst (@purchase_orders ascii_runtime (db_widget 5 2 2) purchase_ten)) = true
      /\ exists records,
           stock (fst (@purchase_orders ascii_runtime (db_widget 5 2 2) purchase_ten))
           = StockPage records).
Proof.
  split; [reflexivity|].
  destruct (@resolving_orders_keep_stock_view ascii_runtime (db_widget 5 2 2)
              purchase_ten (sale_of "1" "cust") eq_refl) as [Hsale Hpurchase].
  split; [exact Hsale|].
  apply (Hpurchase p1 w1); try (vm_compute; reflexivity); vm_compute; discriminate.
Defined.

Lemma add_product_keeps_sku_unique_witness :
  NoDup (omap p_sku (Db.products db_categories))
  /\ NoDup
       (omap p_sku
          (Db.products
             (fst (@add_product ascii_runtime decimal_float 77%N db_categories
                     (widget_form " W-1 " "  " "3")))))
  /\ omap p_sku
       (Db.products
          (fst (@add_product ascii_runtime decimal_float 77%N db_categories
                  (widget_form " W-1 " "  " "3"))))
     = ["A"; "B"; "C"; "D"; "W-1"].
Proof.
  assert (H : NoDup (omap p_sku (Db.products db_categories))).
  { apply (bool_decide_unpack _). vm_compute. exact I. }
  split; [exact H|]. split; [|vm_compute; reflexivity].
  apply (@add_product_keeps_sku_unique ascii_runtime decimal_float 77%N db_categories
           (widget_form " W-1 " "  " "3")).
  exact H.
Defined.

Lemma add_product_refuses_known_sku_witness :
  let db1 := fst (@add_product ascii_runtime decimal_float 77%N db_five
                    (widget_form " W-1 " "  " "3")) in
  succeeded (snd (@add_product ascii_runtime decimal_float 77%N db_five
                    (widget_form " W-1 " "  " "3"))) = true
  /\ succeeded (snd (@add_product ascii_runtime decimal_float 78%N db1
                       (widget_form "W-1" "Tools" "0"))) = false
  /\ fst (@add_product ascii_runtime decimal_float 78%N db1
            (widget_form "W-1" "Tools" "0")) = db1.
Proof.
  intros db1. split; [vm_compute; reflexivity|].
  apply (@add_product_refuses_known_sku ascii_runtime decimal_float 77%N db_five
           (widget_form " W-1 " "  " "3") 78%N (widget_form "W-1" "Tools" "0"));
    vm_compute; reflexivity.
Defined.

Lemma add_product_low_stock_report_witness :
  let form := widget_form " W-1 " "  " "3" in
  let level :=
    default 0
      (@py_int ascii_runtime
         (@py_strip ascii_runtime (default "0" (prf_reorder_level form)))) in
  let total := summed_quantity (Db.stock_levels db_five) 77%N in
  level = 3
  /\ low_stock_report (fst (@add_product ascii_runtime decimal_float 77%N db_five form))
     = (low_stock_report db_five
        ++ (if bool_decide (total < level)
            then [mkLowStockItem (@py_strip ascii_runtime (default "" (prf_sku form)))
                    (@py_strip ascii_runtime (default "" (prf_name form))) level total]
            else []))%list
  /\ (match_product_id 77%N (Db.stock_levels db_five) = [] -> total = 0).
Proof.
  intros form level total. split; [vm_compute; reflexivity|].
  apply (@add_product_low_stock_report ascii_runtime decimal_float 77%N db_five form).
  vm_compute. reflexivity.
Defined.

Lemma add_product_dashboard_witness :
  let form := widget_form " W-1 " "  " "3" in
  let db' := fst (@add_product ascii_runtime decimal_float 77%N db_five form) in
  let key :=
    if bool_decide (@py_strip ascii_runtime (default "" (prf_category form)) = "")
    then "Uncategorized"
    else @py_strip ascii_runtime (default "" (prf_category form)) in
  key = "Uncategorized"
  /\ c_products (counts (dashboard db')) = S (c_products (counts (dashboard db_five)))
  /\ category_totals (dashboard db') !! key
     = Some (default 0 (category_totals (dashboard db_five) !! key)
             + summed_quantity (Db.stock_levels db_five) 77%N)
  /\ forall other, other <> key ->
       category_totals (dashboard db') !! other
       = category_totals (dashboard db_five) !! other.
Proof.
  intros form db' key. split; [vm_compute; reflexivity|].
  apply (@add_product_dashboard ascii_runtime decimal_float 77%N db_five form).
  vm_compute. reflexivity.
Defined.

Lemma add_warehouse_keeps_code_unique_witness :
  let db := db_widget 5 2 2 in
  let db' := fst (@add_warehouse ascii_runtime 79%N db east_form) in
  map wh_code (Db.warehouses db') = ["N"; "S"; "E"]
  /\ NoDup (map wh_code (Db.warehouses db'))
  /\ ("" ∉ map wh_code (Db.warehouses db'))
  /\ (succeeded (snd (@add_warehouse ascii_runtime 79%N db east_form)) = true ->
      forall new_id' form',
        @py_strip ascii_runtime (default "" (wf_code form'))
        = @py_strip ascii_runtime (default "" (wf_code east_form)) ->
        succeeded (snd (@add_warehouse ascii_runtime new_id' db' form')) = false
        /\ fst (@add_warehouse ascii_runtime new_id' db' form') = db').
Proof.
  intros db db'. split; [vm_compute; reflexivity|].
  apply (@add_warehouse_keeps_code_unique ascii_runtime 79%N db east_form).
  - apply (bool_decide_unpack _). vm_compute. exact I.
  - apply (bool_decide_unpack _). vm_compute. exact I.
Defined.

Lemma default_admin_can_log_in_witness :
  @login ascii_runtime plain_werkzeug
    (@_ensure_default_admin plain_werkzeug 9%N "salt" []) nobody POST admin_form
  = (<["user" := mkSessionUser (ObjectId_str 9%N) "admin" "admin"]> nobody,
     RedirectTo "dashboard" [("Logged in successfully.", "success")]).
Proof.
  apply (@default_admin_can_log_in ascii_runtime plain_werkzeug 9%N "salt" []
           nobody admin_form);
    vm_compute; reflexivity.
Defined.

Lemma login_logout_round_trip_witness :
  let session1 :=
    fst (@login ascii_runtime plain_werkzeug first_users nobody POST admin_form) in
  nobody !! "user" = None
  /\ _require_login session1 = None
  /\ index session1 = RedirectTo "dashboard" []
  /\ fst (logout session1) = delete "user" nobody
  /\ (nobody !! "user" = None -> fst (logout session1) = nobody).
Proof.
  intros session1. split; [reflexivity|].
  apply (@login_logout_round_trip ascii_runtime plain_werkzeug first_users nobody
           admin_form).
  vm_compute. reflexivity.
Defined.

(** ** More on single orders *)

Section SingleOrders.
Context `{rt : Runtime}.
Implicit Types (db : Db.t) (p w : oid).

(** X20.  An order with a positive quantity and an id that [ObjectId] does
    not accept ends in an uncaught InvalidId, raised before the first write:
    the database is returned as it was, also when only the last id of a
    purchase order is malformed. *)
Theorem malformed_id_raises_before_any_write db pform sform :
  positive_quantity (pf_quantity pform) = true ->
  positive_quantity (sf_quantity sform) = true ->
  ObjectId (pf_supplier_id pform) = None
  \/ ObjectId (pf_product_id pform) = None
  \/ ObjectId (pf_warehouse_id pform) = None ->
  ObjectId (sf_product_id sform) = None \/ ObjectId (sf_warehouse_id sform) = None ->
  purchase_orders db pform = (db, Uncaught "InvalidId")
  /\ sales_orders db sform = (db, Uncaught "InvalidId").
Proof.
  unfold positive_quantity, purchase_orders, sales_orders.
  intros Hp Hs Hpid Hsid. split.
  - destruct (py_int (default "0" (pf_quantity pform))) as [n|]; [|discriminate].
    apply bool_decide_eq_true in Hp. rewrite bool_decide_eq_false_2 by lia.
    destruct (ObjectId (pf_supplier_id pform)), (ObjectId (pf_product_id pform)),
      (ObjectId (pf_warehouse_id pform)); try reflexivity.
    destruct Hpid as [H|[H|H]]; discriminate H.
  - destruct (py_int (default "0" (sf_quantity sform))) as [n|]; [|discriminate].
    apply bool_decide_eq_true in Hs. rewrite bool_decide_eq_false_2 by lia.
    destruct (ObjectId (sf_product_id sform)), (ObjectId (sf_warehouse_id sform));
      try reflexivity.
    destruct Hsid as [H|H]; discriminate H.
Qed.

(** X21.  A sales request never creates a stock entry and never removes one:
    the keys of the stock levels are the same after it.  A purchase request
    leaves the keys as they are or adds one key, at the end, that had no
    entry. *)
Theorem only_purchases_create_stock_entries db pform sform :
  stock_keys (Db.stock_levels (fst (sales_orders db sform)))
  = stock_keys (Db.stock_levels db)
  /\ (stock_keys (Db.stock_levels (fst (purchase_orders db pform)))
      = stock_keys (Db.stock_levels db)
      \/ exists p w,
           find_one p w (Db.stock_levels db) = None
           /\ stock_keys (Db.stock_levels (fst (purchase_orders db pform)))
              = (stock_keys (Db.stock_levels db) ++ [(p, w)])%list).
Proof.
  split.
  - destruct (handle_outcome db (Sale sform))
      as [[_ H]|[(s & p & w & q & Hk & _)|(p & w & q & c & _ & _ & _ & _ & H)]];
      simpl in *; [rewrite H; reflexivity|discriminate|].
    rewrite H. simpl. rewrite stock_keys_update.
    destruct (find_one p w (Db.stock_levels db)); reflexivity.
  - destruct (handle_outcome db (Purchase pform))
      as [[_ H]|[(s & p & w & q & _ & _ & _ & H)|(p & w & q & c & Hk & _)]];
      simpl in *; [rewrite H; auto| |discriminate].
    rewrite H. simpl. rewrite stock_keys_update.
    destruct (find_one p w (Db.stock_levels db)) eqn:E; [auto|].
    right. exists p, w. auto.
Qed.

(** X22.  A sale undoes a purchase of the same quantity for the same key:
    when the key does not read a negative quantity and the stock level after
    the purchase still fits the 8-byte integers of the storage (so that the
    quantity does too), the purchase and the sale are both accepted, and
    afterwards every key reads what it read before and every product has
    the summed quantity it had. *)
Theorem sale_undoes_purchase db pform sform s p w q :
  ObjectId (pf_supplier_id pform) = Some s ->
  ObjectId (pf_product_id pform) = Some p ->
  ObjectId (pf_warehouse_id pform) = Some w ->
  py_int (default "0" (pf_quantity pform)) = Some q ->
  ObjectId (sf_product_id sform) = Some p ->
  ObjectId (sf_warehouse_id sform) = Some w ->
  py_int (default "0" (sf_quantity sform)) = Some q ->
  0 < q ->
  0 <= available_qty db p w ->
  fits_int64 (available_qty db p w + q) = true ->
  let db1 := fst (purchase_orders db pform) in
  let db2 := fst (sales_orders db1 sform) in
  fits_int64 q = true
  /\ accepted (snd (purchase_orders db pform)) = true
  /\ accepted (snd (sales_orders db1 sform)) = true
  /\ (forall p' w', available_qty db2 p' w' = available_qty db p' w')
  /\ (forall pid, summed_quantity (Db.stock_levels db2) pid
                  = summed_quantity (Db.stock_levels db) pid).
Proof.
  intros Hs Hp Hw Hq Hp' Hw' Hq' Hpos Hnonneg Hfits db1 db2.
  assert (A1 : available_qty db1 p w = available_qty db p w + q).
  { unfold db1. rewrite (purchase_orders_credits db pform s p w q Hs Hp Hw Hq Hpos).
    rewrite bool_decide_eq_true_2 by reflexivity. reflexivity. }
  assert (Hle : q <= available_qty db1 p w) by lia.
  split; [|split; [|split; [|split]]].
  - unfold fits_int64 in *. apply bool_decide_eq_true in Hfits.
    apply bool_decide_eq_true. lia.
  - rewrite (purchase_orders_accepts db pform s p w q Hs Hp Hw Hq Hpos). reflexivity.
  - rewrite (sales_orders_accepts db1 sform p w q Hp' Hw' Hq' Hpos Hle). reflexivity.
  - intros p' w'. unfold db2.
    rewrite (sales_orders_debits db1 sform p w q Hp' Hw' Hq' Hpos Hle).
    unfold db1. rewrite (purchase_orders_credits db pform s p w q Hs Hp Hw Hq Hpos).
    case_bool_decide; lia.
  - intros pid.
    pose proof (handle_summed_quantity db1 (Sale sform) pid) as H2.
    pose proof (handle_summed_quantity db (Purchase pform) pid) as H1.
    simpl in H1, H2. fold db1 in H1. fold db2 in H2. rewrite H2, H1.
    unfold accepted_product_quantity. simpl. fold db1.
    rewrite (purchase_orders_accepts db pform s p w q Hs Hp Hw Hq Hpos) at 1 2.
    rewrite (sales_orders_accepts db1 sform p w q Hp' Hw' Hq' Hpos Hle).
    simpl. rewrite Hp, Hw, Hq, Hp', Hw', Hq'. simpl.
    case_bool_decide; simpl; lia.
Qed.
End SingleOrders.

Lemma malformed_id_raises_before_any_write_witness :
  let pform := mkPurchaseForm S1 P1 "64b7" (Some "3") in
  let sform := mkSalesForm "not-an-id" W1 (Some "3") None in
  @purchase_orders ascii_runtime db_five pform = (db_five, Uncaught "InvalidId")
  /\ @sales_orders ascii_runtime db_five sform = (db_five, Uncaught "InvalidId").
Proof.
  intros pform sform.
  apply (@malformed_id_raises_before_any_write ascii_runtime db_five pform sform);
    try (vm_compute; reflexivity).
  - right. right. vm_compute. reflexivity.
  - left. vm_compute. reflexivity.
Defined.

Lemma sale_undoes_purchase_witness :
  let db1 := fst (@purchase_orders ascii_runtime db_five purchase_ten) in
  let db2 := fst (@sales_orders ascii_runtime db1 (sale_of "10" "cust")) in
  0 <= available_qty db_five p1 w1
  /\ fits_int64 (available_qty db_five p1 w1 + 10) = true
  /\ fits_int64 10 = true
  /\ accepted (snd (@purchase_orders ascii_runtime db_five purchase_ten)) = true
  /\ accepted (snd (@sales_orders ascii_runtime db1 (sale_of "10" "cust"))) = true
  /\ (forall p' w', available_qty db2 p' w' = available_qty db_five p' w')
  /\ (forall pid, summed_quantity (Db.stock_levels db2) pid
                  = summed_quantity (Db.stock_levels db_five) pid).
Proof.
  intros db1 db2. split; [vm_compute; discriminate|].
  split; [vm_compute; reflexivity|].
  apply (@sale_undoes_purchase ascii_runtime db_five purchase_ten
           (sale_of "10" "cust") s1 p1 w1 10);
    try (vm_compute; reflexivity); vm_compute; discriminate.
Defined.
